(** * Performance tracker: record store, aggregates and year-end bonus

    A shallow embedding of [app.py], which holds two front-ends over one
    data file: the Streamlit dashboard (top of the file) and the console
    program [PerformanceTracker] (bottom of the file).

    Modelling conventions.
    - A Python [float] amount is an exact rational [Q]: the development is
      about the arithmetic the program performs, and binary rounding, [nan]
      and [inf] are outside the model.  Equality of amounts is [==].
    - A Python [dict] is an association list in insertion order with the
      update rule of [d[k] = v] (overwrite in place, else append); month
      keys are [Z].
    - The data file is seen through [json.load]: absent, unreadable,
      undecodable, or decoded to an object of records in file order.
    - A raised exception is a value of [result]; console methods run in a
      small state-and-exception monad over the tracker object, the disk,
      the terminal output and the pending input lines. *)

From Stdlib Require Import ZArith QArith Qround Qabs List Bool Ascii String.
From Stdlib Require Import Permutation Sorted Lia Lqa.
From Stdlib Require Import Decimal DecimalString DecimalPos DecimalZ.
Import ListNotations.

Local Open Scope Q_scope.

(** ** Configuration *)

Module Config.
Definition START_YEAR : Z := 2025.
Definition START_MONTH : Z := 2.
Definition END_MONTH : Z := 12.
Definition MONTHLY_TARGET : Q := 180000.
Definition ANNUAL_TARGET : Q := 2300000.
Definition SURPLUS_BONUS_THRESHOLD : Q := 100000.
Definition SURPLUS_BONUS_AMOUNT : Q := 10000.
End Config.

(** ** Python dictionaries keyed by integers *)

Section Dict.
Context {V : Type}.

Definition dict := list (Z * V).

Fixpoint dict_get (d : dict) (k : Z) : option V :=
  match d with
  | [] => None
  | (k', v) :: d' => if Z.eqb k k' then Some v else dict_get d' k
  end.

Definition dict_mem (d : dict) (k : Z) : bool :=
  match dict_get d k with Some _ => true | None => false end.

(** [d[k] = v]: an existing key keeps its position, a new key goes last. *)
Fixpoint dict_set (d : dict) (k : Z) (v : V) : dict :=
  match d with
  | [] => [(k, v)]
  | (k', v') :: d' =>
      if Z.eqb k k' then (k, v) :: d' else (k', v') :: dict_set d' k v
  end.

Definition dict_keys (d : dict) : list Z := map fst d.
Definition dict_values (d : dict) : list V := map snd d.
Definition dict_len (d : dict) : Z := Z.of_nat (List.length d).

(** Truth value of a dict: [if d:] holds for a non-empty one. *)
Definition dict_truthy (d : dict) : bool :=
  match d with [] => false | _ :: _ => true end.

(** What every dictionary the program builds satisfies: keys are unique. *)
Definition dict_wf (d : dict) : Prop := NoDup (dict_keys d).
End Dict.

Arguments dict V : clear implicits.

(** [max(keys)] on a non-empty key list; [default] stands for the
    [ValueError] of an empty one, which the callers exclude. *)
Definition py_max (default : Z) (l : list Z) : Z :=
  match l with
  | [] => default
  | x :: xs => fold_left Z.max xs x
  end.

(** [sorted(keys)]: ascending insertion sort. *)
Fixpoint insert_sorted (x : Z) (l : list Z) : list Z :=
  match l with
  | [] => [x]
  | y :: l' => if Z.leb x y then x :: l else y :: insert_sorted x l'
  end.

Definition sorted (l : list Z) : list Z := fold_right insert_sorted [] l.

(** [range(a, b)] *)
Definition py_range (a b : Z) : list Z :=
  map (fun i => a + Z.of_nat i)%Z (seq 0 (Z.to_nat (b - a))).

(** ** Records *)

Record MonthlyRecord := mkRecord {
  actual_profit : Q;
  performance_diff : Q
}.

Definition Records := dict MonthlyRecord.

(** [sum(xs)]: left to right from 0. *)
Definition py_sum (xs : list Q) : Q := fold_left Qplus xs 0.

Definition Qltb (x y : Q) : bool := negb (Qle_bool y x).

(** [a // b] on amounts: the floor of the quotient, as an amount. *)
Definition py_floordiv (a b : Q) : Q := inject_Z (Qfloor (a / b)).

(** ** Exceptions *)

Inductive exn := JSONDecodeError | IOError | ValueError | EOFError.

Inductive result (A : Type) :=
| Ok (a : A)
| Raise (e : exn).

Arguments Ok {A} a.
Arguments Raise {A} e.

(** ** [str] and [int] on month keys *)

Definition py_str (z : Z) : string := NilEmpty.string_of_int (Z.to_int z).

(** Whitespace that [int] strips from both ends. *)
Definition is_space (c : ascii) : bool :=
  let n := nat_of_ascii c in
  ((9 <=? n) && (n <=? 13) || (28 <=? n) && (n <=? 32))%nat.

Definition digit_of (c : ascii) : option Z :=
  let n := Z.of_nat (nat_of_ascii c) in
  if ((48 <=? n) && (n <=? 57))%Z then Some (n - 48)%Z else None.

Fixpoint lstrip (s : string) : string :=
  match s with
  | EmptyString => EmptyString
  | String c r => if is_space c then lstrip r else s
  end.

Fixpoint rstrip (s : string) : string :=
  match s with
  | EmptyString => EmptyString
  | String c r =>
      match rstrip r with
      | EmptyString => if is_space c then EmptyString else String c EmptyString
      | r' => String c r'
      end
  end.

Definition strip (s : string) : string := rstrip (lstrip s).

(** Decimal digits, with single underscores allowed between two digits. *)
Fixpoint parse_digits (s : string) (acc : Z) (after_digit : bool) : option Z :=
  match s with
  | EmptyString => if after_digit then Some acc else None
  | String c r =>
      match digit_of c with
      | Some d => parse_digits r (10 * acc + d)%Z true
      | None =>
          if (Ascii.eqb c "_" && after_digit)%bool
          then parse_digits r acc false
          else None
      end
  end.

(** [int(s)] for a string [s]; [None] is [ValueError]. *)
Definition py_int (s : string) : option Z :=
  match strip s with
  | String "-" r => option_map Z.opp (parse_digits r 0%Z false)
  | String "+" r => parse_digits r 0%Z false
  | s' => parse_digits s' 0%Z false
  end.

(** ** The data file *)

(** The content of [DATA_FILE] as [open] and [json.load] see it. *)
Inductive file_content :=
| Absent                                          (* os.path.exists is False *)
| Unreadable                                      (* reading raises IOError *)
| Malformed                                       (* json.load raises JSONDecodeError *)
| Stored (doc : list (string * MonthlyRecord)).   (* an object of records *)

Record disk := mkDisk {
  content : file_content;
  writable : bool          (* whether [open(DATA_FILE, 'w')] succeeds *)
}.

(** [json.dump(records, f)]: integer keys become their decimal strings. *)
Definition json_dump (records : Records) : list (string * MonthlyRecord) :=
  map (fun kv => (py_str (fst kv), snd kv)) records.

(** [{int(k): v for k, v in items}] *)
Fixpoint int_keys (items : list (string * MonthlyRecord)) (acc : Records)
  : result Records :=
  match items with
  | [] => Ok acc
  | (k, v) :: items' =>
      match py_int k with
      | Some m => int_keys items' (dict_set acc m v)
      | None => Raise ValueError
      end
  end.

(** The body both loaders share once the file exists:
    [with open(..., 'r') as f: {int(k): v for k, v in json.load(f).items()}] *)
Definition read_records (fs : disk) : result Records :=
  match content fs with
  | Absent | Unreadable => Raise IOError
  | Malformed => Raise JSONDecodeError
  | Stored doc => int_keys doc []
  end.

(** [with open(..., 'w') as f: json.dump(records, f, ...)] *)
Definition write_records (records : Records) (fs : disk) : result disk :=
  if writable fs
  then Ok (mkDisk (Stored (json_dump records)) true)
  else Raise IOError.

Definition file_exists (fs : disk) : bool :=
  match content fs with Absent => false | _ => true end.

(** ** The dashboard front-end *)

Module Dashboard.
Import Config.

Definition load_data (fs : disk) : result Records :=
  if file_exists fs then read_records fs else Ok [].

Definition save_data (records : Records) (fs : disk) : result disk :=
  write_records records fs.

(** The months offered by the selector; the label of month [m] is its
    number followed by the month sign, which the handler strips again. *)
Definition all_months : list Z := py_range START_MONTH (END_MONTH + 1).

Record widgets := mkWidgets {
  selected_month : Z;     (* the month of the selected label *)
  profit_input : Q;       (* the number input, in ten-thousands, -1000 at least *)
  button : bool           (* whether save/update was pressed *)
}.

(** The body of the save/update handler, up to the dictionary update. *)
Definition update_record (records : Records) (month : Z) (profit_input : Q)
  : Records :=
  let actual_profit := profit_input * 10000 in
  let performance_diff := actual_profit - MONTHLY_TARGET in
  dict_set records month (mkRecord actual_profit performance_diff).

Definition cumulative_profit (records : Records) : Q :=
  py_sum (map actual_profit (dict_values records)).

Definition total_deductions (records : Records) : Q :=
  py_sum (map (fun rec => Qabs (performance_diff rec))
              (filter (fun rec => Qltb (performance_diff rec) 0)
                      (dict_values records))).

Definition year_complete (records : Records) : bool :=
  (END_MONTH - START_MONTH + 1 <=? dict_len records)%Z.

Inductive bonus_panel :=
| Achieved (clawback surplus total_bonus : Q)
| NotAchieved.

Definition bonus (cumulative_profit total_deductions : Q) : bonus_panel :=
  if Qle_bool ANNUAL_TARGET cumulative_profit then
    let clawback := total_deductions in
    let surplus :=
      py_floordiv (cumulative_profit - ANNUAL_TARGET) SURPLUS_BONUS_THRESHOLD
      * SURPLUS_BONUS_AMOUNT in
    let total_bonus := clawback + surplus in
    Achieved clawback surplus total_bonus
  else NotAchieved.

Record view := mkView {
  metric_cumulative : Q;
  metric_remaining : Q;
  metric_deductions : Q;
  table : list (Z * option MonthlyRecord);
  panel : option bonus_panel
}.

Definition render (records : Records) : view :=
  let cp := cumulative_profit records in
  let td := total_deductions records in
  mkView cp (ANNUAL_TARGET - cp) td
         (if dict_truthy records
          then map (fun m => (m, dict_get records m)) (sorted (dict_keys records))
          else [])
         (if year_complete records then Some (bonus cp td) else None).

(** One evaluation of the script: the session's record set (loaded from
    the file when the session has none yet), the disk, and what is shown
    or the exception that ends the run. *)
Definition script (session : option Records) (fs : disk) (w : widgets)
  : option Records * disk * result view :=
  match (match session with Some r => Ok r | None => load_data fs end) with
  | Raise e => (session, fs, Raise e)
  | Ok records =>
      if button w then
        let records' := update_record records (selected_month w) (profit_input w) in
        match save_data records' fs with
        | Raise e => (Some records', fs, Raise e)
        | Ok fs' => (Some records', fs', Ok (render records'))
        end
      else (Some records, fs, Ok (render records))
  end.
End Dashboard.

(** ** The console front-end *)

(** What the [Display] helpers and [print] put on the terminal. *)
Inductive level := Header | SubHeader | Success | Error | Info | Plain.

Inductive text :=
| TLoaded | TLoadFailed (e : exn) | TNoDataFile
| TSaveFailed (e : exn)
| TMonthUpdated (month : Z)
| TProgress | TCumulative (x : Q) | TRemaining (x : Q) | TExceeded (x : Q)
| TTitle | TAllMonthsEntered | TInvalidCommand | TFarewell
| TEnterMonth (month : Z) | TInvalidNumber
| TNoHistory | TEditHistory | TNoSuchMonth (month : Z)
| TCurrentProfit (month : Z) (x : Q) | TRecomputing | TEditSaved | TInvalidMonth
| TReportTitle | TTableHead | TRule
| TRow (month : Z) (rec : MonthlyRecord) | TRowMissing (month : Z)
| TYearProfit (x : Q) | TYearTarget (x : Q)
| TBonusTitle | TAchieved | TClawback (x : Q) | TSurplus (x : Q)
| TTotalBonus (x : Q) | TNotAchieved | TNotRefunded (x : Q).

Definition message : Type := level * text.

(** A line typed at a prompt, by what [int] and [float] make of it. *)
Inductive line :=
| LInt (z : Z)         (* an integer literal: [int] and [float] accept it *)
| LDec (q : Q)         (* another number: only [float] accepts it *)
| LText (s : string).  (* anything else, verbatim *)

Definition float_of_line (l : line) : option Q :=
  match l with
  | LInt z => Some (inject_Z z)
  | LDec q => Some q
  | LText _ => None
  end.

Definition int_of_line (l : line) : option Z :=
  match l with
  | LInt z => Some z
  | _ => None
  end.

Definition upper_char (c : ascii) : ascii :=
  let n := nat_of_ascii c in
  if ((97 <=? n) && (n <=? 122))%nat then ascii_of_nat (n - 32) else c.

Fixpoint upper (s : string) : string :=
  match s with
  | EmptyString => EmptyString
  | String c r => String (upper_char c) (upper r)
  end.

(** [action = Display.prompt(...).upper()] as compared with 'E', 'M', 'Q'. *)
Inductive action := ActE | ActM | ActQ | ActOther.

Definition action_of_line (l : line) : action :=
  match l with
  | LText s =>
      let u := upper s in
      if String.eqb u "E" then ActE
      else if String.eqb u "M" then ActM
      else if String.eqb u "Q" then ActQ
      else ActOther
  | _ => ActOther
  end.

Module PerformanceTracker.
Import Config.

(** The object's attributes. *)
Record tracker := mkTracker {
  records : Records;
  cumulative_profit : Q;
  total_deductions : Q
}.

(** The running program: the object, the disk, the terminal output so
    far and the lines still to be typed. *)
Record console := mkConsole {
  self : tracker;
  fs : disk;
  out : list message;
  stdin : list line
}.

Definition M (A : Type) : Type := console -> result (A * console).

Definition ret {A} (a : A) : M A := fun s => Ok (a, s).

Definition bind {A B} (c : M A) (k : A -> M B) : M B :=
  fun s => match c s with
           | Ok (a, s') => k a s'
           | Raise e => Raise e
           end.

Declare Scope console_scope.
Delimit Scope console_scope with console.
Notation "x <- c ;; k" := (bind c (fun x => k))
  (at level 61, c at next level, right associativity) : console_scope.
Notation "c ;; k" := (bind c (fun _ => k))
  (at level 61, right associativity) : console_scope.
Local Open Scope console_scope.

Definition get_self : M tracker := fun s => Ok (self s, s).

Definition set_self (t : tracker) : M unit :=
  fun s => Ok (tt, mkConsole t (fs s) (out s) (stdin s)).

Definition set_records (r : Records) : M unit :=
  t <- get_self ;;
  set_self (mkTracker r (cumulative_profit t) (total_deductions t)).

Definition display (l : level) (t : text) : M unit :=
  fun s => Ok (tt, mkConsole (self s) (fs s) (out s ++ [(l, t)]) (stdin s)).

Definition display_all (ms : list message) : M unit :=
  fun s => Ok (tt, mkConsole (self s) (fs s) (out s ++ ms) (stdin s)).

(** [input(...)]: the next line, or [EOFError] when there is none. *)
Definition prompt : M line :=
  fun s => match stdin s with
           | [] => Raise EOFError
           | l :: rest => Ok (l, mkConsole (self s) (fs s) (out s) rest)
           end.

(** The loop body of [_recalculate_totals] for one month. *)
Definition add_month (records : Records) (acc : Q * Q) (month : Z) : Q * Q :=
  match dict_get records month with
  | Some record =>
      (fst acc + actual_profit record,
       if Qltb (performance_diff record) 0
       then snd acc + Qabs (performance_diff record)
       else snd acc)
  | None => acc   (* not reached: [month] ranges over the keys *)
  end.

(** The two totals [_recalculate_totals] leaves in the object. *)
Definition totals (records : Records) : Q * Q :=
  fold_left (add_month records) (sorted (dict_keys records)) (0, 0).

Definition _recalculate_totals : M unit :=
  t <- get_self ;;
  let ct := totals (records t) in
  set_self (mkTracker (records t) (fst ct) (snd ct)).

Definition _load_data : M unit :=
  fun s =>
    if file_exists (fs s) then
      match read_records (fs s) with
      | Ok r =>
          (set_records r ;; display Success TLoaded ;; _recalculate_totals) s
      | Raise JSONDecodeError =>
          (display Error (TLoadFailed JSONDecodeError) ;; set_records []) s
      | Raise IOError =>
          (display Error (TLoadFailed IOError) ;; set_records []) s
      | Raise e => Raise e
      end
    else display Info TNoDataFile s.

(** [PerformanceTracker()] *)
Definition __init__ (disk0 : disk) (lines : list line) : result (unit * console) :=
  _load_data (mkConsole (mkTracker [] 0 0) disk0 [] lines).

Definition _save_data : M unit :=
  fun s =>
    match write_records (records (self s)) (fs s) with
    | Ok fs' => Ok (tt, mkConsole (self s) fs' (out s) (stdin s))
    | Raise IOError => display Error (TSaveFailed IOError) s
    | Raise e => Raise e
    end.

Fixpoint _get_profit_input_from (lines : list line) (s : console)
  : result (Q * console) :=
  match lines with
  | [] => Raise EOFError
  | l :: rest =>
      match float_of_line l with
      | Some x => Ok (x * 10000, mkConsole (self s) (fs s) (out s) rest)
      | None =>
          _get_profit_input_from rest
            (mkConsole (self s) (fs s) (out s ++ [(Error, TInvalidNumber)]) rest)
      end
  end.

Definition _get_profit_input : M Q :=
  fun s => _get_profit_input_from (stdin s) s.

Definition _update_month_record (month : Z) (actual_profit : Q) : M unit :=
  let performance_diff := actual_profit - MONTHLY_TARGET in
  t <- get_self ;;
  set_records (dict_set (records t) month (mkRecord actual_profit performance_diff)) ;;
  display Success (TMonthUpdated month).

Definition _display_progress : M unit :=
  t <- get_self ;;
  display SubHeader TProgress ;;
  display Plain (TCumulative (cumulative_profit t)) ;;
  let remaining_to_target := ANNUAL_TARGET - cumulative_profit t in
  if Qltb 0 remaining_to_target
  then display Plain (TRemaining remaining_to_target)
  else display Success (TExceeded (- remaining_to_target)).

Definition _get_next_month : M Z :=
  t <- get_self ;;
  if negb (dict_truthy (records t)) then ret START_MONTH
  else
    let last_recorded_month := py_max 0%Z (dict_keys (records t)) in
    ret (last_recorded_month + 1)%Z.

Definition _handle_new_entry (month : Z) : M unit :=
  display SubHeader (TEnterMonth month) ;;
  actual_profit <- _get_profit_input ;;
  _update_month_record month actual_profit ;;
  _recalculate_totals ;;
  _save_data ;;
  _display_progress.

Definition _handle_edit_entry : M unit :=
  t <- get_self ;;
  if negb (dict_truthy (records t)) then display Error TNoHistory
  else
    display SubHeader TEditHistory ;;
    l <- prompt ;;
    match int_of_line l with
    | None => display Error TInvalidMonth
    | Some month_to_edit =>
        match dict_get (records t) month_to_edit with
        | None => display Error (TNoSuchMonth month_to_edit)
        | Some rec =>
            display Info (TCurrentProfit month_to_edit (actual_profit rec / 10000)) ;;
            new_profit <- _get_profit_input ;;
            _update_month_record month_to_edit new_profit ;;
            display Info TRecomputing ;;
            _recalculate_totals ;;
            _save_data ;;
            display Success TEditSaved ;;
            _display_progress
        end
    end.

(** The year-end bonus block that closes the final summary. *)
Definition year_end_bonus (t : tracker) : list message :=
  if Qle_bool ANNUAL_TARGET (cumulative_profit t) then
    let clawback_bonus := total_deductions t in
    let surplus_profit := cumulative_profit t - ANNUAL_TARGET in
    let surplus_bonus :=
      py_floordiv surplus_profit SURPLUS_BONUS_THRESHOLD * SURPLUS_BONUS_AMOUNT in
    let total_bonus := clawback_bonus + surplus_bonus in
    [ (Success, TAchieved);
      (Plain, TClawback clawback_bonus);
      (Plain, TSurplus surplus_bonus);
      (Plain, TTotalBonus total_bonus) ]
  else
    [ (Error, TNotAchieved);
      (Plain, TNotRefunded (total_deductions t)) ].

Definition summary_row (r : Records) (month : Z) : message :=
  match dict_get r month with
  | Some rec => (Plain, TRow month rec)
  | None => (Plain, TRowMissing month)
  end.

Definition _display_final_summary : M unit :=
  t <- get_self ;;
  display Header TReportTitle ;;
  display Plain TTableHead ;;
  display Plain TRule ;;
  display_all (map (summary_row (records t)) (py_range START_MONTH (END_MONTH + 1))) ;;
  display Plain TRule ;;
  display Plain (TYearProfit (cumulative_profit t)) ;;
  display Plain (TYearTarget ANNUAL_TARGET) ;;
  display SubHeader TBonusTitle ;;
  display_all (year_end_bonus t).

(** One turn of the [while True] loop of [run]. *)
Inductive flow := Continue | Break.

Definition run_iteration : M flow :=
  next_month <- _get_next_month ;;
  if (END_MONTH <? next_month)%Z then
    display Success TAllMonthsEntered ;;
    _display_final_summary ;;
    ret Break
  else
    l <- prompt ;;
    match action_of_line l with
    | ActE => _handle_new_entry next_month ;; ret Continue
    | ActM => _handle_edit_entry ;; ret Continue
    | ActQ => ret Break
    | ActOther => display Error TInvalidCommand ;; ret Continue
    end.

(** The loop, with [fuel] turns at most; [None] when they are used up. *)
Fixpoint run_loop (fuel : nat) (s : console) : option (result (unit * console)) :=
  match fuel with
  | O => None
  | S fuel' =>
      match run_iteration s with
      | Raise e => Some (Raise e)
      | Ok (Break, s') => Some (Ok (tt, s'))
      | Ok (Continue, s') => run_loop fuel' s'
      end
  end.

Definition run_body (fuel : nat) (s : console) : option (result (unit * console)) :=
  match (display Header TTitle ;; _display_progress) s with
  | Raise e => Some (Raise e)
  | Ok (_, s1) =>
      match run_loop fuel s1 with
      | Some (Ok (_, s2)) => Some (display Plain TFarewell s2)
      | other => other
      end
  end.

(** [tracker.run()]: every turn that continues reads a line, so one turn
    more than there are lines is enough. *)
Definition run (s : console) : option (result (unit * console)) :=
  run_body (S (List.length (stdin s))) s.

End PerformanceTracker.

(** ** The contract, as the specification words it *)

Module Spec.
Import Config.

(** [upsert(store, month, raw_profit_in_tenthousands)] *)
Definition upsert (store : Records) (month : Z) (raw : Q) : Records :=
  let actual := raw * 10000 in
  dict_set store month (mkRecord actual (actual - MONTHLY_TARGET)).

(** A sequence of upserts, first to last. *)
Definition upserts (us : list (Z * Q)) (store : Records) : Records :=
  fold_left (fun st u => upsert st (fst u) (snd u)) us store.

(** A record whose [performance_diff] agrees with its [actual_profit]. *)
Definition consistent (rec : MonthlyRecord) : Prop :=
  performance_diff rec == actual_profit rec - MONTHLY_TARGET.

Definition all_consistent (store : Records) : Prop :=
  forall month rec, dict_get store month = Some rec -> consistent rec.

(** The aggregate, summed directly from the record set. *)
Definition sum_actual_profit (store : Records) : Q :=
  py_sum (map actual_profit (dict_values store)).

Definition deduction (rec : MonthlyRecord) : Q :=
  if Qlt_le_dec (performance_diff rec) 0 then Qabs (performance_diff rec) else 0.

Definition sum_deductions (store : Records) : Q :=
  py_sum (map deduction (dict_values store)).


(** [compute_bonus(cumulative_profit, total_deductions)] *)
Inductive BonusOutcome :=
| NotEligible
| BonusResult (clawback surplus_bonus total_bonus : Q).

Definition surplus_tiers (cumulative_profit : Q) : Z :=
  Qfloor ((cumulative_profit - ANNUAL_TARGET) / SURPLUS_BONUS_THRESHOLD).

Definition compute_bonus (cumulative_profit total_deductions : Q) : BonusOutcome :=
  if Qlt_le_dec cumulative_profit ANNUAL_TARGET then NotEligible
  else
    let clawback := total_deductions in
    let surplus_bonus :=
      inject_Z (surplus_tiers cumulative_profit) * SURPLUS_BONUS_AMOUNT in
    BonusResult clawback surplus_bonus (clawback + surplus_bonus).

(** The bonus an outcome pays. *)
Definition bonus_paid (o : BonusOutcome) : Q :=
  match o with
  | NotEligible => 0
  | BonusResult _ _ total_bonus => total_bonus
  end.

(** The deductions an outcome refunds. *)
Definition refunded (o : BonusOutcome) : Q :=
  match o with
  | NotEligible => 0
  | BonusResult clawback _ _ => clawback
  end.

(** "Every month in [START_MONTH, END_MONTH] has a record." *)
Definition all_months_recorded (store : Records) : bool :=
  forallb (dict_mem store) (py_range START_MONTH (END_MONTH + 1)).

(** [count(records) >= END_MONTH - START_MONTH + 1] *)
Definition count_complete (store : Records) : bool :=
  (END_MONTH - START_MONTH + 1 <=? dict_len store)%Z.
End Spec.

(** ** Reading the front-ends' results *)

(** The dashboard's panel as a contract outcome. *)
Definition outcome_of_panel (p : Dashboard.bonus_panel) : Spec.BonusOutcome :=
  match p with
  | Dashboard.Achieved c s t => Spec.BonusResult c s t
  | Dashboard.NotAchieved => Spec.NotEligible
  end.

(** The console's bonus block as a contract outcome. *)
Definition outcome_of_block (ms : list message) : option Spec.BonusOutcome :=
  match ms with
  | [(Success, TAchieved); (Plain, TClawback c); (Plain, TSurplus s);
     (Plain, TTotalBonus t)] => Some (Spec.BonusResult c s t)
  | [(Error, TNotAchieved); (Plain, TNotRefunded _)] => Some Spec.NotEligible
  | _ => None
  end.

Module Console.
Import Config PerformanceTracker.

(** The value [_get_next_month] returns, as a function of the records. *)
Definition next_month (r : Records) : Z :=
  if negb (dict_truthy r) then START_MONTH
  else (py_max 0%Z (dict_keys r) + 1)%Z.

(** The condition [run] tests each turn: [next_month > END_MONTH]. *)
Definition gate (s : console) : bool :=
  match _get_next_month s with
  | Ok (next_month, _) => (END_MONTH <? next_month)%Z
  | Raise _ => false
  end.

Definition is_report_title (m : message) : bool :=
  match m with
  | (Header, TReportTitle) => true
  | _ => false
  end.

(** A turn of the loop that leaves it through the final summary: the
    loop breaks and the report was printed during the turn. *)
Definition enters_summary (s : console) : bool :=
  match run_iteration s with
  | Ok (Break, s') =>
      existsb is_report_title (skipn (List.length (out s)) (out s'))
  | _ => false
  end.

(** A fresh tracker started without a data file. *)
Definition fresh (w : bool) (lines : list line) : console :=
  mkConsole (mkTracker [] 0 0) (mkDisk Absent w) [(Info, TNoDataFile)] lines.

(** The states the loop passes through from a fresh tracker. *)
Inductive reachable : console -> Prop :=
| reach_fresh w lines : reachable (fresh w lines)
| reach_turn s s' :
    reachable s -> run_iteration s = Ok (Continue, s') -> reachable s'.

(** [n] turns of the loop, all of which continue. *)
Fixpoint turns (n : nat) (s : console) : option console :=
  match n with
  | O => Some s
  | S n' =>
      match run_iteration s with
      | Ok (Continue, s') => turns n' s'
      | _ => None
      end
  end.

(** Keys [START_MONTH, START_MONTH + 1, ...] without a gap. *)
Definition contiguous (r : Records) : Prop :=
  dict_keys r = map (fun i => START_MONTH + Z.of_nat i)%Z (seq 0 (List.length r)).
End Console.

(** ** Auxiliary readings used in the statements *)

(** An amount read off a lookup, 0 when the month has no record. *)
Definition opt_amount (f : MonthlyRecord -> Q) (o : option MonthlyRecord) : Q :=
  match o with
  | Some rec => f rec
  | None => 0
  end.

(** The state a console method leaves behind, when it returns. *)
Definition state_after {A} (r : result (A * PerformanceTracker.console))
  : option PerformanceTracker.console :=
  match r with
  | Ok (_, s) => Some s
  | Raise _ => None
  end.

(** ** Sample data *)

Module Sample.
Import PerformanceTracker.

(** February then March, entered in order. *)
Definition in_order : Records :=
  Spec.upserts [(2%Z, 19.5); (3%Z, 17)] [].

(** March first, then February twice: a first value, then the final one. *)
Definition out_of_order : Records :=
  Spec.upserts [(3%Z, 17); (2%Z, 1); (2%Z, 19.5)] [].

(** Eleven entries typed at the console, February to December. *)
Definition full_year_lines : list line :=
  flat_map (fun x => [LText "E"; LDec x])
    [19.5; 21; 17; 25; 18; 30; 16.5; 22; 24; 28; 35].

(** The file the dashboard leaves when December is saved first. *)
Definition december_only_disk : disk :=
  snd (fst (Dashboard.script None (mkDisk Absent true)
              (Dashboard.mkWidgets 12 20 true))).


(** A file that is valid JSON with a key that is no integer. *)
Definition bad_key_disk : disk :=
  mkDisk (Stored [("feb"%string, mkRecord 200000 20000)]) true.

(** A file that spells February twice, as "2" and as "02". *)
Definition repeated_key_doc : list (string * MonthlyRecord) :=
  [("2"%string, mkRecord 190000 10000);
   ("3"%string, mkRecord 170000 (-10000));
   ("02"%string, mkRecord 210000 30000)].

(** A data file holding the two months of [in_order]. *)
Definition two_month_disk : disk :=
  mkDisk (Stored (json_dump in_order)) true.

(** A session typed on top of it: a bad command, an edit of February,
    the entry of April with a mistyped number first. *)
Definition edit_then_enter_lines : list line :=
  [LText "x"; LText "m"; LInt 2; LDec 21; LText "E"; LText "2o"; LInt 17].

(** A tracker holding [r], with stale totals, nothing typed yet. *)
Definition holding (r : Records) (w : bool) (lines : list line) : console :=
  mkConsole (mkTracker r 0 0) (mkDisk Absent w) [] lines.
End Sample.

(** ** The dashboard's sidebar *)

(** [s.replace(old, new)]: occurrences of [old] are replaced left to
    right without overlap; [skip] counts the characters of a match still
    to be passed over. *)
Fixpoint replace_from (old new s : string) (skip : nat) : string :=
  match s with
  | EmptyString => EmptyString
  | String c r =>
      match skip with
      | S k => replace_from old new r k
      | O =>
          if String.prefix old s
          then new ++ replace_from old new r (String.length old - 1)
          else String c (replace_from old new r 0)
      end
  end.

(** With an empty [old], [new] goes before every character and at the end. *)
Fixpoint intersperse (new s : string) : string :=
  match s with
  | EmptyString => new
  | String c r => new ++ String c (intersperse new r)
  end.

Definition py_replace (old new s : string) : string :=
  match old with
  | EmptyString => intersperse new s
  | _ => replace_from old new s 0
  end.

(** Every character of [s] satisfies [p]. *)
Fixpoint string_forall (p : ascii -> bool) (s : string) : bool :=
  match s with
  | EmptyString => true
  | String c r => p c && string_forall p r
  end.

Module Sidebar.
Import Config.

(** The month sign of the labels, as the three bytes of its UTF-8 form. *)
Definition month_sign : string :=
  String (ascii_of_nat 230) (String (ascii_of_nat 156)
    (String (ascii_of_nat 136) EmptyString)).

(** The label of month [m]: its number followed by the month sign. *)
Definition month_label (m : Z) : string := py_str m ++ month_sign.

Definition all_months : list string :=
  map month_label (py_range START_MONTH (END_MONTH + 1)).

(** The index the month selector starts on. *)
Definition next_month_index (records : Records) : Z :=
  if dict_truthy records
  then (dict_len records mod Z.of_nat (List.length all_months))%Z
  else 0%Z.

(** [int(selected_month_str.replace(month_sign, ''))]; [None] is
    [ValueError]. *)
Definition month_of_label (selected_month_str : string) : option Z :=
  py_int (py_replace month_sign EmptyString selected_month_str).

(** The label the selector shows first. *)
Definition default_label (records : Records) : option string :=
  nth_error all_months (Z.to_nat (next_month_index records)).
End Sidebar.

(** ** Successive runs of the dashboard script *)

Module Reruns.


End Reruns.

(** ** Reading a file's items *)



(** ** A console session *)

Module Session.
Import Config PerformanceTracker.
Local Open Scope console_scope.

(** [PerformanceTracker()] followed by the opening lines of [run]. *)
Definition started (disk0 : disk) (lines : list line) : result (unit * console) :=
  match __init__ disk0 lines with
  | Ok (_, s0) => (display Header TTitle ;; _display_progress) s0
  | Raise e => Raise e
  end.

(** The states at the head of the loop of [run], for a session started
    on [disk0]. *)
Inductive running (disk0 : disk) : console -> Prop :=
| running_start lines s :
    started disk0 lines = Ok (tt, s) -> running disk0 s
| running_turn s s' :
    running disk0 s -> run_iteration s = Ok (Continue, s') -> running disk0 s'.

(** The stored totals are those of the stored records. *)
Definition coherent (s : console) : Prop :=
  cumulative_profit (self s) = fst (totals (records (self s)))
  /\ total_deductions (self s) = snd (totals (records (self s))).

(** Loading the file gives the records in memory. *)
Definition synced (s : console) : Prop :=
  Dashboard.load_data (fs s) = Ok (records (self s)).



(** What a handler that writes month [m] leaves behind: the upsert, the
    totals recalculated, and the file rewritten when it can be. *)
Definition wrote (s s' : console) (m : Z) (raw : Q) : Prop :=
  records (self s') = Spec.upsert (records (self s)) m raw
  /\ coherent s'
  /\ (writable (fs s) = true ->
      fs s' = mkDisk (Stored (json_dump (records (self s')))) true)
  /\ (writable (fs s) = false -> fs s' = fs s).
End Session.

(** * Properties *)

(** ** Dictionaries *)

Section DictFacts.
Context {V : Type}.
Implicit Types (d : dict V) (k : Z) (v : V).

Lemma dict_get_set_same d k v : dict_get (dict_set d k v) k = Some v.
Proof.
  induction d as [|[k' v'] d IH]; simpl.
  - now rewrite Z.eqb_refl.
  - destruct (Z.eqb k k') eqn:E; simpl.
    + now rewrite Z.eqb_refl.
    + now rewrite E.
Qed.

Lemma dict_get_set_other d k k' v :
  k' <> k -> dict_get (dict_set d k v) k' = dict_get d k'.
Proof.
  intros Hne. induction d as [|[k0 v0] d IH]; simpl.
  - destruct (Z.eqb_spec k' k); [contradiction | reflexivity].
  - destruct (Z.eqb_spec k k0) as [->|Hk]; simpl.
    + destruct (Z.eqb_spec k' k0); [contradiction | reflexivity].
    + destruct (Z.eqb_spec k' k0); [reflexivity | exact IH].
Qed.

Lemma dict_get_In d k v : dict_get d k = Some v -> In (k, v) d.
Proof.
  induction d as [|[k' v'] d IH]; simpl; [discriminate|].
  destruct (Z.eqb_spec k k') as [->|Hk]; intros H.
  - injection H as ->. now left.
  - right. now apply IH.
Qed.

Lemma dict_get_None d k : dict_get d k = None <-> ~ In k (dict_keys d).
Proof.
  induction d as [|[k' v'] d IH]; simpl.
  - tauto.
  - destruct (Z.eqb_spec k k') as [->|Hk].
    + split; [discriminate | intros H; exfalso; apply H; now left].
    + rewrite IH. split; intros H; [intros [E|E]; [congruence | tauto] | tauto].
Qed.

Lemma In_dict_get d k v : dict_wf d -> In (k, v) d -> dict_get d k = Some v.
Proof.
  unfold dict_wf. induction d as [|[k' v'] d IH]; simpl; [tauto|].
  intros Hnd [H|H]; apply NoDup_cons_iff in Hnd as [Hni Hnd].
  - injection H as -> ->. now rewrite Z.eqb_refl.
  - destruct (Z.eqb_spec k k') as [->|Hk].
    + exfalso. apply Hni. change k' with (fst (k', v)). now apply in_map.
    + now apply IH.
Qed.

Lemma dict_mem_In d k : dict_mem d k = true <-> In k (dict_keys d).
Proof.
  unfold dict_mem. destruct (dict_get d k) eqn:E.
  - split; [intros _ | reflexivity].
    apply dict_get_In in E. change k with (fst (k, v)). now apply in_map.
  - split; [discriminate|]. intros H. now apply dict_get_None in E.
Qed.

Lemma dict_keys_set_mem d k v :
  dict_mem d k = true -> dict_keys (dict_set d k v) = dict_keys d.
Proof.
  unfold dict_mem. induction d as [|[k' v'] d IH]; simpl; [discriminate|].
  destruct (Z.eqb_spec k k') as [->|Hk]; simpl; intros H.
  - reflexivity.
  - f_equal. now apply IH.
Qed.

Lemma dict_keys_set_new d k v :
  dict_mem d k = false -> dict_keys (dict_set d k v) = dict_keys d ++ [k].
Proof.
  unfold dict_mem. induction d as [|[k' v'] d IH]; simpl; [reflexivity|].
  destruct (Z.eqb_spec k k') as [->|Hk]; simpl; intros H.
  - discriminate.
  - f_equal. now apply IH.
Qed.

Lemma dict_set_new d k v :
  dict_mem d k = false -> dict_set d k v = d ++ [(k, v)].
Proof.
  unfold dict_mem. induction d as [|[k' v'] d IH]; simpl; [reflexivity|].
  destruct (Z.eqb_spec k k') as [->|Hk]; simpl; intros H.
  - discriminate.
  - f_equal. now apply IH.
Qed.

Lemma dict_len_set_mem d k v :
  dict_mem d k = true -> List.length (dict_set d k v) = List.length d.
Proof.
  intros H. apply (dict_keys_set_mem d k v) in H.
  apply (f_equal (@List.length Z)) in H.
  unfold dict_keys in H. now rewrite !length_map in H.
Qed.

Lemma dict_wf_set d k v : dict_wf d -> dict_wf (dict_set d k v).
Proof.
  unfold dict_wf. intros Hnd. destruct (dict_mem d k) eqn:E.
  - now rewrite dict_keys_set_mem.
  - rewrite dict_keys_set_new by assumption.
    assert (Hni : ~ In k (dict_keys d)).
    { intros H. apply dict_mem_In in H. congruence. }
    clear E. induction (dict_keys d) as [|x l IH]; simpl.
    + constructor; [tauto | constructor].
    + apply NoDup_cons_iff in Hnd as [Hx Hl]. constructor.
      * rewrite in_app_iff. simpl. intros [H|[H|[]]]; [tauto|].
        apply Hni. now left.
      * apply IH; [assumption|]. intros H. apply Hni. now right.
Qed.

Lemma dict_wf_nil : dict_wf (@nil (Z * V)).
Proof. constructor. Qed.



(** Looking the keys up in order returns the values in order. *)
Lemma lookups_of_keys d :
  dict_wf d -> map (dict_get d) (dict_keys d) = map Some (dict_values d).
Proof.
  intros Hwf. unfold dict_keys, dict_values. rewrite !map_map.
  apply map_ext_in. intros [k v] Hin. simpl. now apply In_dict_get.
Qed.
End DictFacts.

(** ** [sorted] *)



Lemma insert_sorted_Permutation x l : Permutation (insert_sorted x l) (x :: l).
Proof.
  induction l as [|y l IH]; simpl.
  - reflexivity.
  - destruct (Z.leb x y); [reflexivity|].
    rewrite IH. apply perm_swap.
Qed.

Lemma sorted_Permutation l : Permutation (sorted l) l.
Proof.
  induction l as [|x l IH]; simpl.
  - reflexivity.
  - rewrite insert_sorted_Permutation. now constructor.
Qed.

Lemma insert_sorted_ascending x l :
  Sorted Z.le l -> Sorted Z.le (insert_sorted x l).
Proof.
  induction 1 as [|y l Hs IH Hhd]; simpl.
  - repeat constructor.
  - destruct (Z.leb_spec x y).
    + constructor; [now constructor | now constructor].
    + constructor; [assumption|].
      destruct Hhd as [|z l' Hyz]; simpl.
      * constructor. lia.
      * destruct (Z.leb x z); constructor; lia.
Qed.

Lemma sorted_ascending l : Sorted Z.le (sorted l).
Proof.
  induction l; simpl; [constructor | now apply insert_sorted_ascending].
Qed.

(** ** Sums of amounts *)

Lemma Qltb_lt x y : Qltb x y = true <-> x < y.
Proof.
  unfold Qltb. rewrite negb_true_iff.
  destruct (Qle_bool y x) eqn:E.
  - apply Qle_bool_iff in E. split; [discriminate | intros H; lra].
  - split; [intros _ | reflexivity].
    apply Qnot_le_lt. intros H. apply Qle_bool_iff in H. congruence.
Qed.

Lemma Qltb_ge x y : Qltb x y = false <-> y <= x.
Proof.
  unfold Qltb. rewrite negb_false_iff. apply Qle_bool_iff.
Qed.

Lemma fold_Qplus_acc l a : fold_left Qplus l a == a + py_sum l.
Proof.
  unfold py_sum. revert a. induction l as [|x l IH]; intros a; simpl.
  - lra.
  - rewrite IH, (IH (0 + x)). lra.
Qed.

Lemma py_sum_cons x l : py_sum (x :: l) == x + py_sum l.
Proof. unfold py_sum at 1. simpl. rewrite fold_Qplus_acc. lra. Qed.

Lemma py_sum_app l1 l2 : py_sum (l1 ++ l2) == py_sum l1 + py_sum l2.
Proof.
  induction l1 as [|x l1 IH]; simpl.
  - unfold py_sum at 2. simpl. lra.
  - rewrite !py_sum_cons, IH. lra.
Qed.

Lemma py_sum_Permutation l1 l2 : Permutation l1 l2 -> py_sum l1 == py_sum l2.
Proof.
  induction 1.
  - reflexivity.
  - rewrite !py_sum_cons. lra.
  - rewrite !py_sum_cons. lra.
  - lra.
Qed.

Lemma py_sum_nonneg l : Forall (fun x => 0 <= x) l -> 0 <= py_sum l.
Proof.
  induction 1 as [|x l Hx Hl IH].
  - unfold py_sum. simpl. lra.
  - rewrite py_sum_cons. lra.
Qed.

(** ** Aggregates *)

Section Aggregates.
Import PerformanceTracker.

Lemma add_month_sums (r : Records) l acc :
  fst (fold_left (add_month r) l acc)
    == fst acc + py_sum (map (fun m => opt_amount actual_profit (dict_get r m)) l)
  /\ snd (fold_left (add_month r) l acc)
    == snd acc + py_sum (map (fun m => opt_amount Spec.deduction (dict_get r m)) l).
Proof.
  revert acc. induction l as [|m l IH]; intros acc; simpl.
  - unfold py_sum; simpl. split; lra.
  - destruct (IH (add_month r acc m)) as [IH1 IH2].
    rewrite IH1, IH2, !py_sum_cons. clear IH IH1 IH2.
    unfold add_month. destruct (dict_get r m) as [rec|]; simpl.
    + split; [lra|]. unfold Spec.deduction.
      destruct (Qltb (performance_diff rec) 0) eqn:E;
        destruct (Qlt_le_dec (performance_diff rec) 0) as [Hlt|Hge]; simpl.
      * lra.
      * apply Qltb_lt in E. lra.
      * apply Qltb_ge in E. lra.
      * lra.
    + split; lra.
Qed.

Lemma lookups_amounts (f : MonthlyRecord -> Q) (r : Records) :
  dict_wf r ->
  map (fun m => opt_amount f (dict_get r m)) (dict_keys r) = map f (dict_values r).
Proof.
  intros Hwf.
  rewrite <- (map_map (dict_get r) (opt_amount f)), lookups_of_keys, map_map
    by assumption.
  reflexivity.
Qed.

Lemma totals_direct (r : Records) :
  dict_wf r ->
  fst (totals r) == Spec.sum_actual_profit r
  /\ snd (totals r) == Spec.sum_deductions r.
Proof.
  intros Hwf. unfold totals, Spec.sum_actual_profit, Spec.sum_deductions.
  destruct (add_month_sums r (sorted (dict_keys r)) (0, 0)) as [H1 H2].
  rewrite H1, H2. simpl.
  rewrite <- !lookups_amounts by assumption.
  split; rewrite Qplus_0_l; apply py_sum_Permutation, Permutation_map,
    sorted_Permutation.
Qed.

Lemma dashboard_deductions_direct (r : Records) :
  Dashboard.total_deductions r == Spec.sum_deductions r.
Proof.
  unfold Dashboard.total_deductions, Spec.sum_deductions.
  induction (dict_values r) as [|rec l IH]; simpl.
  - reflexivity.
  - rewrite py_sum_cons. unfold Spec.deduction at 1.
    destruct (Qltb (performance_diff rec) 0) eqn:E;
      destruct (Qlt_le_dec (performance_diff rec) 0) as [Hlt|Hge]; simpl.
    + rewrite py_sum_cons, IH. reflexivity.
    + apply Qltb_lt in E. lra.
    + apply Qltb_ge in E. lra.
    + rewrite IH. lra.
Qed.



Lemma recalculate_state s :
  _recalculate_totals s =
    Ok (tt, mkConsole (mkTracker (records (self s))
                                 (fst (totals (records (self s))))
                                 (snd (totals (records (self s)))))
                      (fs s) (out s) (stdin s)).
Proof. reflexivity. Qed.

Lemma upsert_wf store month raw : dict_wf store -> dict_wf (Spec.upsert store month raw).
Proof. apply dict_wf_set. Qed.

Lemma upserts_wf us store : dict_wf store -> dict_wf (Spec.upserts us store).
Proof.
  revert store. induction us as [|u us IH]; intros store Hwf; simpl.
  - assumption.
  - apply IH. now apply upsert_wf.
Qed.
End Aggregates.

Section Recalculate.
Import PerformanceTracker.
Local Open Scope console_scope.

Lemma deduction_nonneg rec : 0 <= Spec.deduction rec.
Proof.
  unfold Spec.deduction.
  destruct (Qlt_le_dec (performance_diff rec) 0); [apply Qabs_nonneg | lra].
Qed.

Lemma sum_deductions_nonneg (r : Records) : 0 <= Spec.sum_deductions r.
Proof.
  unfold Spec.sum_deductions. apply py_sum_nonneg, Forall_forall.
  intros x Hin. apply in_map_iff in Hin as [rec [<- _]]. apply deduction_nonneg.
Qed.

Lemma totals_deductions_nonneg (r : Records) : 0 <= snd (totals r).
Proof.
  unfold totals.
  destruct (add_month_sums r (sorted (dict_keys r)) (0, 0)) as [_ H].
  rewrite H. simpl. rewrite Qplus_0_l. apply py_sum_nonneg, Forall_forall.
  intros x Hin. apply in_map_iff in Hin as [m [<- _]].
  destruct (dict_get r m); simpl; [apply deduction_nonneg | lra].
Qed.


(** C10: the total deductions a recalculation produces are never
    negative, for any record list whatever its keys and profits, in both
    front-ends; the cumulative profit can be negative. *)
Theorem total_deductions_nonnegative :
  (forall s : console,
      match state_after (_recalculate_totals s) with
      | Some t => 0 <= total_deductions (self t)
      | None => False
      end)
  /\ (forall r : Records, 0 <= Dashboard.total_deductions r)
  /\ (exists s : console,
         dict_wf (records (self s))
         /\ match state_after (_recalculate_totals s) with
            | Some t => cumulative_profit (self t) < 0
            | None => False
            end
         /\ Dashboard.cumulative_profit (records (self s)) < 0).
Proof.
  split; [|split].
  - intros s. rewrite recalculate_state. simpl. apply totals_deductions_nonneg.
  - intros r. rewrite dashboard_deductions_direct. apply sum_deductions_nonneg.
  - exists (mkConsole (mkTracker (Spec.upsert [] 2 (-3)) 0 0)
                      (mkDisk Absent true) [] []).
    split; [|split].
    + apply upsert_wf, dict_wf_nil.
    + vm_compute. reflexivity.
    + vm_compute. reflexivity.
Qed.
End Recalculate.


(** ** Year-end bonus *)

Section Bonus.
Import Config PerformanceTracker.

Lemma target_reached_iff cp : Qle_bool ANNUAL_TARGET cp = true <-> ~ cp < ANNUAL_TARGET.
Proof.
  rewrite Qle_bool_iff. split; intros H.
  - apply Qle_not_lt, H.
  - apply Qnot_lt_le, H.
Qed.

Lemma target_missed_iff cp : Qle_bool ANNUAL_TARGET cp = false <-> cp < ANNUAL_TARGET.
Proof.
  destruct (Qle_bool ANNUAL_TARGET cp) eqn:E.
  - apply target_reached_iff in E. split; [discriminate | tauto].
  - split; [intros _ | reflexivity].
    apply Qnot_le_lt. intros H. apply Qle_bool_iff in H. congruence.
Qed.

(** The tier count is the number of whole thresholds in the surplus. *)
Lemma surplus_tiers_bounds cp :
  inject_Z (Spec.surplus_tiers cp) * SURPLUS_BONUS_THRESHOLD <= cp - ANNUAL_TARGET
  /\ cp - ANNUAL_TARGET < (inject_Z (Spec.surplus_tiers cp) + 1) * SURPLUS_BONUS_THRESHOLD.
Proof.
  unfold Spec.surplus_tiers.
  set (x := (cp - ANNUAL_TARGET) / SURPLUS_BONUS_THRESHOLD).
  assert (Hx : cp - ANNUAL_TARGET == x * SURPLUS_BONUS_THRESHOLD).
  { unfold x, SURPLUS_BONUS_THRESHOLD. field. }
  pose proof (Qfloor_le x) as Hlo. pose proof (Qlt_floor x) as Hhi.
  rewrite inject_Z_plus in Hhi. change (inject_Z 1) with 1 in Hhi.
  rewrite Hx. unfold SURPLUS_BONUS_THRESHOLD. split; lra.
Qed.

Lemma surplus_tiers_nonneg cp : ANNUAL_TARGET <= cp -> (0 <= Spec.surplus_tiers cp)%Z.
Proof.
  intros H. unfold Spec.surplus_tiers.
  change 0%Z with (Qfloor 0). apply Qfloor_resp_le.
  unfold ANNUAL_TARGET, SURPLUS_BONUS_THRESHOLD in *.
  apply Qle_shift_div_l; lra.
Qed.

Lemma final_summary_ends_with_bonus s :
  exists s',
    _display_final_summary s = Ok (tt, s')
    /\ self s' = self s
    /\ out s' =
         out s
         ++ ([(Header, TReportTitle); (Plain, TTableHead); (Plain, TRule)]
             ++ map (summary_row (records (self s))) (py_range START_MONTH (END_MONTH + 1))
             ++ [(Plain, TRule); (Plain, TYearProfit (cumulative_profit (self s)));
                 (Plain, TYearTarget ANNUAL_TARGET); (SubHeader, TBonusTitle)])
         ++ year_end_bonus (self s).
Proof.
  unfold _display_final_summary, bind, get_self, display, display_all.
  cbv beta iota. cbn [self fs out stdin].
  eexists. split; [reflexivity|].
  cbn [self fs out stdin]. split; [reflexivity|].
  repeat rewrite <- app_assoc. reflexivity.
Qed.

(** C1: below the annual target the outcome is not-eligible: no bonus and
    no refund; from the target on, the outcome refunds the deductions in
    full and adds [floor((cumulative_profit - ANNUAL_TARGET) /
    SURPLUS_BONUS_THRESHOLD) * SURPLUS_BONUS_AMOUNT]; the dashboard's panel
    and the console's bonus block both are this outcome. *)
Theorem compute_bonus_both_front_ends (cp td : Q) (r : Records) :
  outcome_of_panel (Dashboard.bonus cp td) = Spec.compute_bonus cp td
  /\ outcome_of_block (year_end_bonus (mkTracker r cp td))
     = Some (Spec.compute_bonus cp td)
  /\ (cp < ANNUAL_TARGET ->
      Dashboard.bonus cp td = Dashboard.NotAchieved
      /\ year_end_bonus (mkTracker r cp td)
         = [(Error, TNotAchieved); (Plain, TNotRefunded td)]
      /\ Spec.compute_bonus cp td = Spec.NotEligible
      /\ Spec.bonus_paid (Spec.compute_bonus cp td) = 0
      /\ Spec.refunded (Spec.compute_bonus cp td) = 0)
  /\ (~ cp < ANNUAL_TARGET ->
      let surplus_bonus :=
        inject_Z (Qfloor ((cp - ANNUAL_TARGET) / SURPLUS_BONUS_THRESHOLD))
        * SURPLUS_BONUS_AMOUNT in
      Dashboard.bonus cp td = Dashboard.Achieved td surplus_bonus (td + surplus_bonus)
      /\ year_end_bonus (mkTracker r cp td)
         = [(Success, TAchieved); (Plain, TClawback td);
            (Plain, TSurplus surplus_bonus); (Plain, TTotalBonus (td + surplus_bonus))]
      /\ Spec.compute_bonus cp td
         = Spec.BonusResult td surplus_bonus (td + surplus_bonus)).
Proof.
  unfold Dashboard.bonus, year_end_bonus, Spec.compute_bonus, py_floordiv,
    Spec.surplus_tiers.
  cbn [cumulative_profit total_deductions].
  destruct (Qlt_le_dec cp ANNUAL_TARGET) as [Hlt|Hge].
  - rewrite (proj2 (target_missed_iff cp) Hlt). cbn [outcome_of_panel outcome_of_block].
    split; [reflexivity|]. split; [reflexivity|]. split.
    + intros _. repeat split; reflexivity.
    + intros Hn. contradiction.
  - assert (Hn : ~ cp < ANNUAL_TARGET) by now apply Qle_not_lt.
    rewrite (proj2 (target_reached_iff cp) Hn).
    cbn [outcome_of_panel outcome_of_block].
    split; [reflexivity|]. split; [reflexivity|]. split.
    + intros Hlt. contradiction.
    + intros _. cbv zeta. repeat split; reflexivity.
Qed.

(** The specification's tiering example. *)
Example bonus_tiering_example :
  Dashboard.bonus 2450001 5000 = Dashboard.Achieved 5000 10000 15000
  /\ Spec.surplus_tiers 2450001 = 1%Z.
Proof. split; reflexivity. Qed.

(** One unit below the target is not eligible. *)
Example bonus_ineligible_example :
  Dashboard.bonus (ANNUAL_TARGET - 1) 5000 = Dashboard.NotAchieved
  /\ year_end_bonus (mkTracker [] (ANNUAL_TARGET - 1) 5000)
     = [(Error, TNotAchieved); (Plain, TNotRefunded 5000)].
Proof. split; reflexivity. Qed.
End Bonus.

(** ** Console methods *)

Section ConsoleFacts.
Import Config PerformanceTracker.
Local Open Scope console_scope.

Lemma bind_Ok {A B} (c : M A) (k : A -> M B) s b s' :
  bind c k s = Ok (b, s') ->
  exists a s1, c s = Ok (a, s1) /\ k a s1 = Ok (b, s').
Proof.
  unfold bind. destruct (c s) as [[a s1]|e]; [|discriminate].
  intros H. now exists a, s1.
Qed.

Lemma update_month_record_state month x s :
  _update_month_record month x s =
    Ok (tt, mkConsole
              (mkTracker
                 (dict_set (records (self s)) month (mkRecord x (x - MONTHLY_TARGET)))
                 (cumulative_profit (self s)) (total_deductions (self s)))
              (fs s) (out s ++ [(Success, TMonthUpdated month)]) (stdin s)).
Proof. reflexivity. Qed.

Lemma get_profit_input_number s l rest raw :
  stdin s = l :: rest -> float_of_line l = Some raw ->
  _get_profit_input s = Ok (raw * 10000, mkConsole (self s) (fs s) (out s) rest).
Proof.
  intros Hin Hl. unfold _get_profit_input. rewrite Hin. simpl. now rewrite Hl.
Qed.

Lemma get_profit_input_from_frame lines s x s' :
  _get_profit_input_from lines s = Ok (x, s') ->
  self s' = self s /\ fs s' = fs s
  /\ (exists raw, x = raw * 10000)
  /\ (List.length (stdin s') < List.length lines)%nat.
Proof.
  revert s. induction lines as [|l rest IH]; intros s; simpl; [discriminate|].
  destruct (float_of_line l) as [raw|].
  - intros H. injection H as <- <-. simpl.
    repeat split; try reflexivity; [now exists raw | lia].
  - intros H. apply IH in H as (H1 & H2 & H3 & H4). simpl in *.
    repeat split; try assumption. lia.
Qed.

Lemma get_profit_input_frame s x s' :
  _get_profit_input s = Ok (x, s') ->
  self s' = self s /\ fs s' = fs s
  /\ (exists raw, x = raw * 10000)
  /\ (List.length (stdin s') < List.length (stdin s))%nat.
Proof. apply get_profit_input_from_frame. Qed.

Lemma save_data_returns s :
  exists s',
    _save_data s = Ok (tt, s')
    /\ self s' = self s /\ stdin s' = stdin s
    /\ (writable (fs s) = true ->
        fs s' = mkDisk (Stored (json_dump (records (self s)))) true
        /\ out s' = out s)
    /\ (writable (fs s) = false ->
        fs s' = fs s /\ out s' = out s ++ [(Error, TSaveFailed IOError)]).
Proof.
  unfold _save_data, write_records, display.
  destruct (writable (fs s)); eexists; (split; [reflexivity|]); simpl;
    repeat split; try reflexivity; discriminate.
Qed.

Lemma display_progress_returns s :
  exists s',
    _display_progress s = Ok (tt, s')
    /\ self s' = self s /\ fs s' = fs s /\ stdin s' = stdin s.
Proof.
  unfold _display_progress, bind, get_self, display. cbv beta iota.
  cbn [self fs out stdin].
  destruct (Qltb 0 (ANNUAL_TARGET - cumulative_profit (self s)));
    eexists; (split; [reflexivity|]); simpl; repeat split.
Qed.

(** What [_handle_new_entry] does when the next line is a number. *)
Lemma handle_new_entry_number month s l rest raw :
  stdin s = l :: rest -> float_of_line l = Some raw ->
  exists s',
    _handle_new_entry month s = Ok (tt, s')
    /\ records (self s') = Spec.upsert (records (self s)) month raw
    /\ cumulative_profit (self s') = fst (totals (records (self s')))
    /\ total_deductions (self s') = snd (totals (records (self s')))
    /\ stdin s' = rest.
Proof.
  intros Hin Hl. unfold _handle_new_entry.
  unfold bind at 1. unfold display at 1. cbv beta iota.
  unfold bind at 1.
  rewrite (get_profit_input_number _ l rest raw) by (simpl; assumption).
  unfold bind at 1. rewrite update_month_record_state.
  unfold bind at 1. rewrite recalculate_state. cbn [self fs out stdin records].
  match goal with |- context [bind _save_data _ ?st] =>
    destruct (save_data_returns st) as (s2 & E2 & Hs2 & Hi2 & _) end.
  unfold bind at 1. rewrite E2.
  destruct (display_progress_returns s2) as (s3 & E3 & Hs3 & _ & Hi3).
  exists s3. split; [exact E3|].
  rewrite Hs3, Hs2, Hi3, Hi2. simpl. repeat split.
Qed.

(** Any return of [_handle_new_entry] has written one record. *)
Lemma handle_new_entry_returns month s s' :
  _handle_new_entry month s = Ok (tt, s') ->
  exists raw,
    records (self s') = Spec.upsert (records (self s)) month raw
    /\ cumulative_profit (self s') = fst (totals (records (self s')))
    /\ total_deductions (self s') = snd (totals (records (self s')))
    /\ (List.length (stdin s') < List.length (stdin s))%nat.
Proof.
  unfold _handle_new_entry. intros H.
  apply bind_Ok in H as ([] & s1 & E1 & H). unfold display in E1.
  injection E1 as <-.
  apply bind_Ok in H as (x & s2 & E2 & H).
  apply get_profit_input_frame in E2 as (Hs2 & Hf2 & [raw ->] & Hlen).
  apply bind_Ok in H as ([] & s3 & E3 & H).
  rewrite update_month_record_state in E3. injection E3 as <-.
  apply bind_Ok in H as ([] & s4 & E4 & H).
  rewrite recalculate_state in E4. injection E4 as <-.
  cbn [self fs out stdin records] in H.
  apply bind_Ok in H as ([] & s5 & E5 & H).
  match type of E5 with _save_data ?st = _ =>
    destruct (save_data_returns st) as (s5' & E5' & Hs5 & Hi5 & _) end.
  rewrite E5' in E5. injection E5 as <-.
  destruct (display_progress_returns s5') as (s6 & E6 & Hs6 & _ & Hi6).
  rewrite E6 in H. injection H as <-.
  exists raw. rewrite Hs6, Hs5, Hi6, Hi5. simpl in *. rewrite Hs2.
  repeat split. exact Hlen.
Qed.
End ConsoleFacts.

Section EditFacts.
Import Config PerformanceTracker.
Local Open Scope console_scope.

Lemma dict_truthy_of_get (r : Records) m rec :
  dict_get r m = Some rec -> dict_truthy r = true.
Proof. destruct r; [discriminate | reflexivity]. Qed.

(** What [_handle_edit_entry] does on an existing month and a number. *)
Lemma handle_edit_entry_number s m old l rest raw :
  stdin s = LInt m :: l :: rest ->
  dict_get (records (self s)) m = Some old ->
  float_of_line l = Some raw ->
  exists s',
    _handle_edit_entry s = Ok (tt, s')
    /\ records (self s') = Spec.upsert (records (self s)) m raw
    /\ cumulative_profit (self s') = fst (totals (records (self s')))
    /\ total_deductions (self s') = snd (totals (records (self s')))
    /\ stdin s' = rest.
Proof.
  intros Hin Hold Hl. unfold _handle_edit_entry.
  unfold bind at 1. unfold get_self at 1. cbv beta iota.
  rewrite (dict_truthy_of_get _ _ _ Hold). cbn [negb].
  unfold bind at 1. unfold display at 1. cbv beta iota.
  unfold bind at 1. unfold prompt at 1. cbn [self fs out stdin].
  rewrite Hin. cbn [int_of_line]. rewrite Hold.
  unfold bind at 1. unfold display at 1. cbv beta iota.
  unfold bind at 1.
  rewrite (get_profit_input_number _ l rest raw) by (simpl; trivial).
  unfold bind at 1. rewrite update_month_record_state.
  unfold bind at 1. unfold display at 1. cbv beta iota.
  unfold bind at 1. rewrite recalculate_state. cbn [self fs out stdin records].
  match goal with |- context [bind _save_data _ ?st] =>
    destruct (save_data_returns st) as (s2 & E2 & Hs2 & Hi2 & _) end.
  unfold bind at 1. rewrite E2.
  unfold bind at 1. unfold display at 1. cbv beta iota.
  match goal with |- context [_display_progress ?st] =>
    destruct (display_progress_returns st) as (s3 & E3 & Hs3 & _ & Hi3) end.
  exists s3. split; [exact E3|].
  rewrite Hs3, Hi3. cbn [self stdin]. rewrite Hs2, Hi2. simpl. repeat split.
Qed.

(** Any return of [_handle_edit_entry] left the records alone or
    overwrote the record of a month that was present. *)
Lemma handle_edit_entry_returns s s' :
  _handle_edit_entry s = Ok (tt, s') ->
  (List.length (stdin s') <= List.length (stdin s))%nat
  /\ (records (self s') = records (self s)
      \/ exists m raw,
           dict_mem (records (self s)) m = true
           /\ records (self s') = Spec.upsert (records (self s)) m raw
           /\ cumulative_profit (self s') = fst (totals (records (self s')))
           /\ total_deductions (self s') = snd (totals (records (self s')))).
Proof.
  unfold _handle_edit_entry. intros H.
  apply bind_Ok in H as (t & s0 & E0 & H). unfold get_self in E0.
  injection E0 as <- <-.
  destruct (negb (dict_truthy (records (self s)))).
  { unfold display in H. injection H as <-. simpl. split; [lia | now left]. }
  apply bind_Ok in H as ([] & s1 & E1 & H). unfold display in E1.
  injection E1 as <-.
  apply bind_Ok in H as (l & s2 & E2 & H). unfold prompt in E2.
  cbn [self fs out stdin] in E2.
  destruct (stdin s) as [|l0 rest] eqn:Hin; [discriminate|].
  injection E2 as <- <-.
  destruct (int_of_line l0) as [m|].
  2:{ unfold display in H. injection H as <-. simpl. split; [lia | now left]. }
  destruct (dict_get (records (self s)) m) as [old|] eqn:Hold.
  2:{ unfold display in H. injection H as <-. simpl. split; [lia | now left]. }
  apply bind_Ok in H as ([] & s3 & E3 & H). unfold display in E3.
  injection E3 as <-.
  apply bind_Ok in H as (x & s4 & E4 & H).
  apply get_profit_input_frame in E4 as (Hs4 & Hf4 & [raw ->] & Hlen).
  cbn [self fs out stdin] in Hs4, Hf4, Hlen.
  apply bind_Ok in H as ([] & s5 & E5 & H).
  rewrite update_month_record_state in E5. injection E5 as <-.
  apply bind_Ok in H as ([] & s6 & E6 & H). unfold display in E6.
  injection E6 as <-.
  apply bind_Ok in H as ([] & s7 & E7 & H).
  rewrite recalculate_state in E7. injection E7 as <-.
  cbn [self fs out stdin records] in H.
  apply bind_Ok in H as ([] & s8 & E8 & H).
  match type of E8 with _save_data ?st = _ =>
    destruct (save_data_returns st) as (s8' & E8' & Hs8 & Hi8 & _) end.
  rewrite E8' in E8. injection E8 as <-.
  apply bind_Ok in H as ([] & s9 & E9 & H). unfold display in E9.
  injection E9 as <-.
  match type of H with _display_progress ?st = _ =>
    destruct (display_progress_returns st) as (s10 & E10 & Hs10 & _ & Hi10) end.
  rewrite E10 in H. injection H as <-.
  rewrite Hs10, Hi10. cbn [self stdin]. rewrite Hs8, Hi8. simpl. rewrite Hs4.
  split; [lia|]. right. exists m, raw. unfold dict_mem. rewrite Hold.
  repeat split.
Qed.
End EditFacts.

(** ** Upserts *)

Section Upsert.
Import Config PerformanceTracker.
Local Open Scope console_scope.

Lemma upsert_get_same store month raw :
  dict_get (Spec.upsert store month raw) month
  = Some (mkRecord (raw * 10000) (raw * 10000 - MONTHLY_TARGET)).
Proof. apply dict_get_set_same. Qed.

Lemma upsert_get_other store month raw m' :
  m' <> month -> dict_get (Spec.upsert store month raw) m' = dict_get store m'.
Proof. apply dict_get_set_other. Qed.

Lemma upsert_consistent store month raw :
  Spec.all_consistent store -> Spec.all_consistent (Spec.upsert store month raw).
Proof.
  intros Hall m rec. destruct (Z.eq_dec m month) as [->|Hne].
  - rewrite upsert_get_same. intros H. injection H as <-.
    unfold Spec.consistent. simpl. reflexivity.
  - rewrite upsert_get_other by assumption. apply Hall.
Qed.

Lemma upserts_consistent us store :
  Spec.all_consistent store -> Spec.all_consistent (Spec.upserts us store).
Proof.
  revert store. induction us as [|u us IH]; intros store Hall; simpl.
  - assumption.
  - apply IH. now apply upsert_consistent.
Qed.

Lemma upsert_keeps_members store month raw k :
  dict_mem store k = true -> dict_mem (Spec.upsert store month raw) k = true.
Proof.
  intros H. unfold dict_mem. destruct (Z.eq_dec k month) as [->|Hne].
  - now rewrite upsert_get_same.
  - now rewrite upsert_get_other.
Qed.

(** Overwriting a month replaces its contribution to the sum. *)
Lemma sum_actual_profit_set (r : Records) m old new :
  dict_get r m = Some old ->
  Spec.sum_actual_profit (dict_set r m new)
  == Spec.sum_actual_profit r - actual_profit old + actual_profit new.
Proof.
  unfold Spec.sum_actual_profit, dict_values.
  induction r as [|[k v] r IH]; simpl; [discriminate|].
  destruct (Z.eqb_spec m k) as [->|Hne]; intros H.
  - injection H as ->. simpl. rewrite !py_sum_cons. lra.
  - simpl. rewrite !py_sum_cons, IH by assumption. lra.
Qed.

(** C3: after an upsert of [raw] (in ten-thousands) for [month], the
    record stored for [month] has actual_profit = raw * 10000 and
    performance_diff = actual_profit - MONTHLY_TARGET, in the dashboard's
    save handler and in the console's entry handler alike; every record of
    a store written by upserts only has this shape. *)
Theorem upsert_postcondition (store : Records) (month : Z) (raw : Q) :
  let written := mkRecord (raw * 10000) (raw * 10000 - MONTHLY_TARGET) in
  dict_get (Dashboard.update_record store month raw) month = Some written
  /\ (forall disk0,
         fst (fst (Dashboard.script (Some store) disk0
                     (Dashboard.mkWidgets month raw true)))
         = Some (Dashboard.update_record store month raw))
  /\ (forall cp td disk0 shown l rest,
         float_of_line l = Some raw ->
         exists s',
           _handle_new_entry month
             (mkConsole (mkTracker store cp td) disk0 shown (l :: rest))
           = Ok (tt, s')
           /\ dict_get (records (self s')) month = Some written)
  /\ performance_diff written = actual_profit written - MONTHLY_TARGET
  /\ (Spec.all_consistent store ->
      Spec.all_consistent (Dashboard.update_record store month raw))
  /\ (forall us, Spec.all_consistent (Spec.upserts us [])).
Proof.
  cbv zeta. split; [apply upsert_get_same|]. split.
  { intros disk0. unfold Dashboard.script, Dashboard.save_data, write_records.
    cbn [Dashboard.button Dashboard.selected_month Dashboard.profit_input].
    destruct (writable disk0); reflexivity. }
  split.
  { intros cp td disk0 shown l rest Hl.
    destruct (handle_new_entry_number month
                (mkConsole (mkTracker store cp td) disk0 shown (l :: rest))
                l rest raw eq_refl Hl) as (s' & E & Hr & _).
    exists s'. split; [exact E|]. rewrite Hr. apply upsert_get_same. }
  split; [reflexivity|]. split; [apply upsert_consistent|].
  intros us. apply upserts_consistent. intros m rec H. discriminate.
Qed.

(** C9: when writing the file fails, [_save_data] returns normally, shows
    an error, and leaves the object (record set and totals), the file and
    the pending input as they were; it raises in no state at all. *)
Theorem save_failure_keeps_memory (s : console) :
  writable (fs s) = false ->
  _save_data s
  = Ok (tt, mkConsole (self s) (fs s)
                      (out s ++ [(Error, TSaveFailed IOError)]) (stdin s))
  /\ (forall s0, exists s0', _save_data s0 = Ok (tt, s0') /\ self s0' = self s0).
Proof.
  intros Hw. split.
  - unfold _save_data, write_records. rewrite Hw. reflexivity.
  - intros s0. destruct (save_data_returns s0) as (s0' & E & Hs & _).
    now exists s0'.
Qed.

Lemma save_failure_witness :
  _save_data (Sample.holding Sample.in_order false [])
  = Ok (tt, mkConsole (mkTracker Sample.in_order 0 0) (mkDisk Absent false)
                      [(Error, TSaveFailed IOError)] []).
Proof.
  apply (save_failure_keeps_memory (Sample.holding Sample.in_order false [])).
  reflexivity.
Defined.
End Upsert.

(** ** The main loop *)

Section Loop.
Import Config PerformanceTracker.
Local Open Scope console_scope.

Lemma get_next_month_value s :
  _get_next_month s = Ok (Console.next_month (records (self s)), s).
Proof.
  unfold _get_next_month, Console.next_month, bind, get_self, ret.
  destruct (negb (dict_truthy (records (self s)))); reflexivity.
Qed.

Lemma gate_next_month s :
  Console.gate s = (END_MONTH <? Console.next_month (records (self s)))%Z.
Proof. unfold Console.gate. now rewrite get_next_month_value. Qed.

Lemma run_iteration_gate_true s :
  Console.gate s = true ->
  exists s',
    run_iteration s = Ok (Break, s')
    /\ self s' = self s
    /\ out s' =
         out s
         ++ (Success, TAllMonthsEntered) :: (Header, TReportTitle)
            :: [(Plain, TTableHead); (Plain, TRule)]
            ++ map (summary_row (records (self s))) (py_range START_MONTH (END_MONTH + 1))
            ++ [(Plain, TRule); (Plain, TYearProfit (cumulative_profit (self s)));
                (Plain, TYearTarget ANNUAL_TARGET); (SubHeader, TBonusTitle)]
            ++ year_end_bonus (self s).
Proof.
  intros Hg. rewrite gate_next_month in Hg. unfold run_iteration.
  unfold bind at 1. rewrite get_next_month_value. rewrite Hg.
  unfold bind at 1. unfold display at 1. cbv beta iota.
  match goal with |- context [bind _display_final_summary _ ?st] =>
    destruct (final_summary_ends_with_bonus st) as (s2 & E2 & Hs2 & Ho2) end.
  unfold bind at 1. rewrite E2. unfold ret. exists s2.
  split; [reflexivity|]. split; [exact Hs2|].
  rewrite Ho2. cbn [self fs out stdin].
  repeat rewrite <- app_assoc. reflexivity.
Qed.

(** A turn that does not meet the gate reads a command; it breaks only
    on Q, printing nothing, and continues otherwise. *)
Lemma run_iteration_gate_false s f s' :
  Console.gate s = false ->
  run_iteration s = Ok (f, s') ->
  (List.length (stdin s') < List.length (stdin s))%nat
  /\ ((f = Break /\ self s' = self s /\ out s' = out s)
      \/ (f = Continue
          /\ (records (self s') = records (self s)
              \/ (exists raw,
                     records (self s')
                     = Spec.upsert (records (self s))
                         (Console.next_month (records (self s))) raw)
              \/ (exists m raw,
                     dict_mem (records (self s)) m = true
                     /\ records (self s') = Spec.upsert (records (self s)) m raw)))).
Proof.
  intros Hg H. rewrite gate_next_month in Hg. unfold run_iteration in H.
  apply bind_Ok in H as (nm & s0 & E0 & H).
  rewrite get_next_month_value in E0. injection E0 as <- <-.
  rewrite Hg in H.
  apply bind_Ok in H as (l & s1 & E1 & H). unfold prompt in E1.
  destruct (stdin s) as [|l0 rest] eqn:Hin; [discriminate|].
  injection E1 as <- <-.
  destruct (action_of_line l0).
  - apply bind_Ok in H as ([] & s2 & E2 & H). unfold ret in H.
    injection H as <- <-.
    apply handle_new_entry_returns in E2 as (raw & Hr & _ & _ & Hlen).
    cbn [self fs out stdin] in *. split; [simpl; lia|]. right.
    split; [reflexivity|]. right. left. now exists raw.
  - apply bind_Ok in H as ([] & s2 & E2 & H). unfold ret in H.
    injection H as <- <-.
    apply handle_edit_entry_returns in E2 as (Hlen & Hr).
    cbn [self fs out stdin] in *. split; [simpl; lia|]. right.
    split; [reflexivity|].
    destruct Hr as [Hr|(m & raw & Hm & Hr & _)].
    + now left.
    + right. right. now exists m, raw.
  - unfold ret in H. injection H as <- <-. simpl. split; [simpl; lia|]. now left.
  - apply bind_Ok in H as ([] & s2 & E2 & H). unfold display in E2.
    injection E2 as <-. unfold ret in H. injection H as <- <-.
    simpl. split; [simpl; lia|]. right. split; [reflexivity|]. now left.
Qed.

Lemma existsb_report_title_app pre post :
  existsb Console.is_report_title (pre ++ (Header, TReportTitle) :: post) = true.
Proof.
  rewrite existsb_app. simpl. now rewrite orb_true_r.
Qed.

Lemma skipn_length_app {A} (l1 l2 : list A) : skipn (List.length l1) (l1 ++ l2) = l2.
Proof. induction l1; simpl; [reflexivity | assumption]. Qed.

Lemma skipn_length_self {A} (l : list A) : skipn (List.length l) l = [].
Proof. induction l; simpl; [reflexivity | assumption]. Qed.

(** The loop leaves through the final summary exactly when the gate
    holds. *)
Lemma enters_summary_gate s : Console.enters_summary s = Console.gate s.
Proof.
  unfold Console.enters_summary. destruct (Console.gate s) eqn:Hg.
  - destruct (run_iteration_gate_true s Hg) as (s' & E & _ & Ho).
    rewrite E, Ho, skipn_length_app.
    apply (existsb_report_title_app [(Success, TAllMonthsEntered)]).
  - destruct (run_iteration s) as [[f s']|e] eqn:E; [|reflexivity].
    destruct (run_iteration_gate_false s f s' Hg E) as (_ & [(-> & _ & Ho)|(-> & _)]).
    + rewrite Ho, skipn_length_self. reflexivity.
    + reflexivity.
Qed.

(** Every turn that continues consumes input, so the loop of [run] ends
    within its allowance of turns. *)
Lemma run_loop_ends fuel s :
  (List.length (stdin s) < fuel)%nat -> run_loop fuel s <> None.
Proof.
  revert s. induction fuel as [|fuel IH]; intros s Hlen; [lia|]. simpl.
  destruct (run_iteration s) as [[f s']|e] eqn:E; [|discriminate].
  destruct f; [|discriminate].
  apply IH.
  destruct (Console.gate s) eqn:Hg.
  - destruct (run_iteration_gate_true s Hg) as (s2 & E2 & _). congruence.
  - destruct (run_iteration_gate_false s _ _ Hg E) as (Hl & _). lia.
Qed.

Lemma run_ends s : run s <> None.
Proof.
  unfold run, run_body.
  destruct ((display Header TTitle ;; _display_progress) s) as [[u s1]|e] eqn:E;
    [|discriminate].
  assert (Hin : stdin s1 = stdin s).
  { apply bind_Ok in E as ([] & s0 & E0 & E1). unfold display in E0.
    injection E0 as <-.
    match type of E1 with _display_progress ?st = _ =>
      destruct (display_progress_returns st) as (s1' & E1' & _ & _ & Hi) end.
    rewrite E1' in E1. injection E1 as ?. subst s1'. exact Hi. }
  pose proof (run_loop_ends (S (List.length (stdin s))) s1) as Hne.
  destruct (run_loop (S (List.length (stdin s))) s1) as [[[u2 s2]|e]|].
  - unfold display. discriminate.
  - discriminate.
  - exfalso. apply Hne; [rewrite Hin; lia | reflexivity].
Qed.
End Loop.

(** ** Year-complete gating *)

Section Gating.
Import Config PerformanceTracker.

Lemma fold_max_spec xs a :
  (fold_left Z.max xs a = a \/ In (fold_left Z.max xs a) xs)
  /\ (a <= fold_left Z.max xs a)%Z
  /\ (forall y, In y xs -> (y <= fold_left Z.max xs a)%Z).
Proof.
  revert a. induction xs as [|x xs IH]; intros a; simpl.
  - split; [now left|]. split; [lia | tauto].
  - destruct (IH (Z.max a x)) as (Hin & Hle & Hub). split; [|split].
    + destruct Hin as [Hin|Hin]; [|now right; right].
      rewrite Hin. destruct (Z.max_spec a x) as [[_ ->]|[_ ->]]; [right|]; auto.
    + lia.
    + intros y [<-|Hy]; [lia | now apply Hub].
Qed.

Lemma py_max_spec d x xs :
  In (py_max d (x :: xs)) (x :: xs)
  /\ (forall y, In y (x :: xs) -> (y <= py_max d (x :: xs))%Z).
Proof.
  unfold py_max. destruct (fold_max_spec xs x) as (Hin & Hle & Hub). split.
  - destruct Hin as [->|Hin]; [now left | now right].
  - intros y [<-|Hy]; [assumption | now apply Hub].
Qed.

Lemma py_range_In a b k : In k (py_range a b) <-> (a <= k < b)%Z.
Proof.
  unfold py_range. rewrite in_map_iff. split.
  - intros (i & <- & Hi). apply in_seq in Hi. lia.
  - intros Hk. exists (Z.to_nat (k - a)). split; [lia|]. apply in_seq. lia.
Qed.

Lemma contiguous_In (r : Records) k :
  Console.contiguous r ->
  In k (dict_keys r) <-> (START_MONTH <= k < START_MONTH + Z.of_nat (List.length r))%Z.
Proof.
  intros Hc. rewrite Hc, in_map_iff. split.
  - intros (i & Hi1 & Hi). cbv beta in Hi1. apply in_seq in Hi. lia.
  - intros Hk. exists (Z.to_nat (k - START_MONTH)). split; [lia|].
    apply in_seq. lia.
Qed.

Lemma contiguous_next_month (r : Records) :
  Console.contiguous r ->
  Console.next_month r = (START_MONTH + Z.of_nat (List.length r))%Z.
Proof.
  intros Hc. unfold Console.next_month.
  destruct r as [|[k v] r']; [reflexivity|]. cbn [dict_truthy negb].
  set (r := (k, v) :: r') in *.
  destruct (py_max_spec 0%Z k (dict_keys r')) as (Hin & Hub).
  change (k :: dict_keys r') with (dict_keys r) in Hin, Hub.
  apply (contiguous_In r _ Hc) in Hin.
  assert (Hlast : In (START_MONTH + Z.of_nat (List.length r) - 1)%Z (dict_keys r)).
  { apply (contiguous_In r _ Hc). unfold r. simpl List.length. lia. }
  apply Hub in Hlast. lia.
Qed.

Lemma contiguous_nil : Console.contiguous [].
Proof. reflexivity. Qed.

Lemma contiguous_upsert_next (r : Records) raw :
  Console.contiguous r ->
  Console.contiguous (Spec.upsert r (Console.next_month r) raw).
Proof.
  intros Hc. rewrite (contiguous_next_month r Hc).
  assert (Hnew : dict_mem r (START_MONTH + Z.of_nat (List.length r)) = false).
  { destruct (dict_mem r _) eqn:E; [|reflexivity].
    apply dict_mem_In, (contiguous_In r _ Hc) in E. lia. }
  unfold Spec.upsert, Console.contiguous. cbv zeta.
  rewrite dict_set_new by assumption.
  unfold Console.contiguous, dict_keys in *.
  rewrite map_app, length_app, Nat.add_1_r, seq_S, map_app, Hc.
  reflexivity.
Qed.

Lemma contiguous_upsert_member (r : Records) m raw :
  Console.contiguous r -> dict_mem r m = true ->
  Console.contiguous (Spec.upsert r m raw).
Proof.
  intros Hc Hm. unfold Console.contiguous, Spec.upsert. cbv zeta.
  rewrite dict_keys_set_mem, dict_len_set_mem by assumption. exact Hc.
Qed.

(** The console only ever builds stores without a gap. *)
Lemma reachable_contiguous s :
  Console.reachable s -> Console.contiguous (records (self s)).
Proof.
  induction 1 as [w lines|s s' Hreach IH Hstep].
  - apply contiguous_nil.
  - destruct (Console.gate s) eqn:Hg.
    + destruct (run_iteration_gate_true s Hg) as (s2 & E2 & _). congruence.
    + destruct (run_iteration_gate_false s _ _ Hg Hstep)
        as (_ & [(Hf & _)|(_ & [Hr|[(raw & Hr)|(m & raw & Hm & Hr)]])]).
      * discriminate.
      * now rewrite Hr.
      * rewrite Hr. now apply contiguous_upsert_next.
      * rewrite Hr. now apply contiguous_upsert_member.
Qed.

Lemma contiguous_gate (r : Records) :
  Console.contiguous r ->
  (END_MONTH <? Console.next_month r)%Z = Spec.count_complete r
  /\ Spec.all_months_recorded r = Spec.count_complete r.
Proof.
  intros Hc. rewrite (contiguous_next_month r Hc).
  unfold Spec.count_complete, dict_len, START_MONTH, END_MONTH.
  split.
  - destruct (Z.ltb_spec 12 (2 + Z.of_nat (List.length r)));
      destruct (Z.leb_spec (12 - 2 + 1) (Z.of_nat (List.length r)));
      try reflexivity; lia.
  - unfold Spec.all_months_recorded.
    destruct (Z.leb_spec (12 - 2 + 1) (Z.of_nat (List.length r))) as [Hn|Hn].
    + apply forallb_forall. intros k Hk. apply py_range_In in Hk.
      apply dict_mem_In, (contiguous_In r _ Hc).
      unfold START_MONTH, END_MONTH in *. lia.
    + destruct (forallb (dict_mem r) (py_range START_MONTH (END_MONTH + 1))) eqn:E;
        [|reflexivity].
      rewrite forallb_forall in E.
      assert (Hk : In 12%Z (py_range START_MONTH (END_MONTH + 1))).
      { apply py_range_In. unfold START_MONTH, END_MONTH. lia. }
      apply E, dict_mem_In, (contiguous_In r _ Hc) in Hk.
      unfold START_MONTH in Hk. lia.
Qed.

(** A store that has every month makes the console leave, gaps or not
    elsewhere. *)
Lemma all_months_recorded_gate (r : Records) :
  Spec.all_months_recorded r = true -> (END_MONTH <? Console.next_month r)%Z = true.
Proof.
  intros Hall. unfold Spec.all_months_recorded in Hall.
  rewrite forallb_forall in Hall.
  assert (Hk : In END_MONTH (py_range START_MONTH (END_MONTH + 1))).
  { apply py_range_In. unfold START_MONTH, END_MONTH. lia. }
  apply Hall, dict_mem_In in Hk. unfold Console.next_month.
  destruct r as [|[k v] r']; [contradiction|]. cbn [dict_truthy negb].
  change (dict_keys ((k, v) :: r')) with (k :: dict_keys r') in *.
  destruct (py_max_spec 0%Z k (dict_keys r')) as (_ & Hub).
  apply Hub in Hk. apply Z.ltb_lt. lia.
Qed.
End Gating.

Section YearComplete.
Import Config PerformanceTracker.

Lemma turns_reachable n s s' :
  Console.reachable s -> Console.turns n s = Some s' -> Console.reachable s'.
Proof.
  revert s. induction n as [|n IH]; intros s Hr; simpl.
  - intros H. now injection H as <-.
  - destruct (run_iteration s) as [[[] s1]|e] eqn:E; try discriminate.
    apply IH. now apply (Console.reach_turn s s1).
Qed.

(** C6, as the code has it: the dashboard shows the bonus panel exactly
    when count(records) >= END_MONTH - START_MONTH + 1; the console loop
    leaves through the final summary exactly when the month after the
    largest recorded one is past END_MONTH; a store with every month of
    [START_MONTH, END_MONTH] always makes it leave; and in every state the
    loop reaches from a fresh tracker without a data file, leaving, having
    every month recorded, and the count condition all coincide. *)
Theorem year_complete_gates (s : console) :
  Console.reachable s ->
  Console.enters_summary s = Spec.all_months_recorded (records (self s))
  /\ Console.enters_summary s = Spec.count_complete (records (self s))
  /\ (forall s0,
         Console.enters_summary s0
         = (END_MONTH <? Console.next_month (records (self s0)))%Z)
  /\ (forall s0,
         Spec.all_months_recorded (records (self s0)) = true ->
         Console.enters_summary s0 = true)
  /\ (forall r,
         match Dashboard.panel (Dashboard.render r) with
         | Some _ => true
         | None => false
         end = Spec.count_complete r).
Proof.
  intros Hreach. apply reachable_contiguous in Hreach.
  destruct (contiguous_gate _ Hreach) as (Hgate & Hall).
  rewrite enters_summary_gate, gate_next_month.
  split; [now rewrite Hall|]. split; [exact Hgate|]. split; [|split].
  - intros s0. now rewrite enters_summary_gate, gate_next_month.
  - intros s0 H0. rewrite enters_summary_gate, gate_next_month.
    now apply all_months_recorded_gate.
  - intros r. unfold Dashboard.render. cbn [Dashboard.panel].
    change (Spec.count_complete r) with (Dashboard.year_complete r).
    now destruct (Dashboard.year_complete r).
Qed.

Lemma year_complete_witness :
  exists s,
    Console.turns 11 (Console.fresh true Sample.full_year_lines) = Some s
    /\ Console.enters_summary s = true
    /\ Spec.all_months_recorded (records (self s)) = true
    /\ Spec.count_complete (records (self s)) = true
    /\ Console.enters_summary (Console.fresh true Sample.full_year_lines) = false.
Proof.
  destruct (Console.turns 11 (Console.fresh true Sample.full_year_lines))
    as [s|] eqn:E; [|vm_compute in E; discriminate].
  exists s. split; [reflexivity|].
  assert (Hr : Console.reachable s).
  { apply (turns_reachable 11 (Console.fresh true Sample.full_year_lines));
      [apply Console.reach_fresh | exact E]. }
  destruct (year_complete_gates s Hr) as (Hall & Hcount & Hnext & _).
  assert (Hc : Spec.count_complete (records (self s)) = true).
  { vm_compute in E. injection E as <-. vm_compute. reflexivity. }
  split; [now rewrite Hcount|]. split; [now rewrite <- Hall, Hcount|].
  split; [exact Hc|].
  rewrite Hnext. vm_compute. reflexivity.
Defined.

(** C6 as worded fails on a store with a gap: with December saved first
    (from the dashboard), the console leaves into the final summary at
    once although ten months have no record and the count is 1. *)
Lemma december_only_enters_summary :
  exists s,
    __init__ Sample.december_only_disk [] = Ok (tt, s)
    /\ dict_keys (records (self s)) = [12%Z]
    /\ Console.enters_summary s = true
    /\ Spec.all_months_recorded (records (self s)) = false
    /\ Spec.count_complete (records (self s)) = false.
Proof.
  eexists. split; [vm_compute; reflexivity|].
  repeat split; vm_compute; reflexivity.
Qed.
End YearComplete.

(** ** Editing a month *)

Section Edit.
Import Config PerformanceTracker.

Lemma run_iteration_keeps_members s f s' k :
  run_iteration s = Ok (f, s') ->
  dict_mem (records (self s)) k = true -> dict_mem (records (self s')) k = true.
Proof.
  intros Hrun Hk. destruct (Console.gate s) eqn:Hg.
  - destruct (run_iteration_gate_true s Hg) as (s2 & E2 & Hs2 & _).
    rewrite E2 in Hrun. injection Hrun as _ <-. now rewrite Hs2.
  - destruct (run_iteration_gate_false s f s' Hg Hrun)
      as (_ & [(_ & Hs & _)|(_ & [Hr|[(raw & Hr)|(m & raw & _ & Hr)]])]).
    + now rewrite Hs.
    + now rewrite Hr.
    + rewrite Hr. now apply upsert_keeps_members.
    + rewrite Hr. now apply upsert_keeps_members.
Qed.

(** C8: editing a month that is present changes that month's record only:
    every other month keeps its record, the set of months is the same (no
    record is deleted, here or in any turn of the console, or by the
    dashboard's handler), and the recalculated cumulative profit is the
    sum over the new record set, that is the old sum with the month's old
    profit taken out and its new one put in. *)
Theorem edit_changes_only_its_month
  (s : console) (m : Z) (old : MonthlyRecord) (l : line) (rest : list line) (raw : Q) :
  dict_wf (records (self s)) ->
  stdin s = LInt m :: l :: rest ->
  dict_get (records (self s)) m = Some old ->
  float_of_line l = Some raw ->
  exists s',
    _handle_edit_entry s = Ok (tt, s')
    /\ dict_get (records (self s')) m
       = Some (mkRecord (raw * 10000) (raw * 10000 - MONTHLY_TARGET))
    /\ (forall m', m' <> m ->
                   dict_get (records (self s')) m' = dict_get (records (self s)) m')
    /\ dict_keys (records (self s')) = dict_keys (records (self s))
    /\ cumulative_profit (self s') == Spec.sum_actual_profit (records (self s'))
    /\ cumulative_profit (self s')
       == Spec.sum_actual_profit (records (self s)) - actual_profit old + raw * 10000
    /\ records (self s') = Dashboard.update_record (records (self s)) m raw
    /\ Dashboard.cumulative_profit (Dashboard.update_record (records (self s)) m raw)
       == Dashboard.cumulative_profit (records (self s)) - actual_profit old + raw * 10000
    /\ (forall s0 f s0' k,
           run_iteration s0 = Ok (f, s0') ->
           dict_mem (records (self s0)) k = true ->
           dict_mem (records (self s0')) k = true)
    /\ (forall r k month x,
           dict_mem r k = true ->
           dict_mem (Dashboard.update_record r month x) k = true).
Proof.
  intros Hwf Hin Hold Hl.
  destruct (handle_edit_entry_number s m old l rest raw Hin Hold Hl)
    as (s' & E & Hr & Hcp & _).
  exists s'. split; [exact E|].
  assert (Hmem : dict_mem (records (self s)) m = true).
  { unfold dict_mem. now rewrite Hold. }
  assert (Hsum : Spec.sum_actual_profit (records (self s'))
                 == Spec.sum_actual_profit (records (self s))
                    - actual_profit old + raw * 10000).
  { rewrite Hr. unfold Spec.upsert. cbv zeta.
    rewrite (sum_actual_profit_set _ m old) by exact Hold. reflexivity. }
  assert (Hdirect : cumulative_profit (self s')
                    == Spec.sum_actual_profit (records (self s'))).
  { rewrite Hcp. apply totals_direct. rewrite Hr. now apply upsert_wf. }
  split; [rewrite Hr; apply upsert_get_same|].
  split; [intros m' Hne; rewrite Hr; now apply upsert_get_other|].
  split; [rewrite Hr; now apply dict_keys_set_mem|].
  split; [exact Hdirect|].
  split; [now rewrite Hdirect|].
  split; [exact Hr|].
  split.
  { change (Dashboard.update_record (records (self s)) m raw)
      with (Spec.upsert (records (self s)) m raw).
    rewrite <- Hr. exact Hsum. }
  split; [apply run_iteration_keeps_members|].
  intros r k month x. apply upsert_keeps_members.
Qed.

Lemma edit_witness :
  exists s',
    _handle_edit_entry (Sample.holding Sample.in_order true [LInt 2; LDec 25])
    = Ok (tt, s')
    /\ dict_get (records (self s')) 3 = dict_get Sample.in_order 3
    /\ dict_keys (records (self s')) = [2%Z; 3%Z]
    /\ cumulative_profit (self s') == 420000.
Proof.
  destruct (edit_changes_only_its_month
              (Sample.holding Sample.in_order true [LInt 2; LDec 25])
              2 (mkRecord (19.5 * 10000) (19.5 * 10000 - MONTHLY_TARGET))
              (LDec 25) [] 25)
    as (s' & E & _ & Hother & Hkeys & _ & Hcp & _).
  - apply upserts_wf, dict_wf_nil.
  - reflexivity.
  - reflexivity.
  - reflexivity.
  - exists s'. split; [exact E|].
    split; [apply Hother; lia|]. split; [exact Hkeys|].
    rewrite Hcp. vm_compute. reflexivity.
Defined.
End Edit.

(** ** Month keys through [str] and [int] *)

Section Keys.

Ltac eval_digit :=
  match goal with
  | |- context [digit_of ?c] =>
      let v := eval vm_compute in (digit_of c) in
      change (digit_of c) with v; cbv beta iota
  end.

Lemma parse_digits_pos d acc :
  parse_digits (NilEmpty.string_of_uint d) (Zpos acc) true
  = Some (Zpos (Pos.of_uint_acc d acc)).
Proof.
  revert acc.
  induction d; intros acc;
    cbn [NilEmpty.string_of_uint parse_digits Pos.of_uint_acc];
    try reflexivity;
    eval_digit; rewrite <- IHd; f_equal; lia.
Qed.

Lemma parse_digits_zero d :
  parse_digits (NilEmpty.string_of_uint d) 0%Z true = Some (Z.of_N (Pos.of_uint d)).
Proof.
  induction d; cbn [NilEmpty.string_of_uint parse_digits Pos.of_uint];
    try reflexivity; eval_digit;
    [exact IHd | cbn [Z.of_N]; rewrite <- parse_digits_pos; f_equal ..].
Qed.

Lemma parse_digits_first d acc :
  d <> Nil ->
  parse_digits (NilEmpty.string_of_uint d) acc false
  = parse_digits (NilEmpty.string_of_uint d) acc true.
Proof. destruct d; [contradiction | reflexivity ..]. Qed.

Lemma rstrip_digits d :
  rstrip (NilEmpty.string_of_uint d) = NilEmpty.string_of_uint d.
Proof.
  induction d; cbn [NilEmpty.string_of_uint rstrip]; try reflexivity;
    rewrite IHd; now destruct (NilEmpty.string_of_uint d).
Qed.

Lemma strip_digits d :
  strip (NilEmpty.string_of_uint d) = NilEmpty.string_of_uint d.
Proof.
  unfold strip.
  replace (lstrip (NilEmpty.string_of_uint d)) with (NilEmpty.string_of_uint d)
    by (destruct d; reflexivity).
  apply rstrip_digits.
Qed.

Lemma strip_minus_digits d :
  strip (String "-" (NilEmpty.string_of_uint d))
  = String "-" (NilEmpty.string_of_uint d).
Proof.
  unfold strip. change (lstrip (String "-" ?s)) with (String "-" s).
  cbn [rstrip]. rewrite rstrip_digits.
  now destruct (NilEmpty.string_of_uint d).
Qed.

Lemma py_int_digits d :
  d <> Nil ->
  py_int (NilEmpty.string_of_uint d) = Some (Z.of_N (Pos.of_uint d)).
Proof.
  intros Hd. unfold py_int. rewrite strip_digits.
  rewrite <- parse_digits_zero, <- parse_digits_first by assumption.
  destruct d; [contradiction | reflexivity ..].
Qed.

(** [int(str(k)) == k] for every integer [k]. *)
Lemma py_int_py_str k : py_int (py_str k) = Some k.
Proof.
  unfold py_str. destruct k as [|p|p]; cbn [Z.to_int NilEmpty.string_of_int].
  - reflexivity.
  - rewrite py_int_digits by apply Unsigned.to_uint_nonnil.
    now rewrite Unsigned.of_to.
  - unfold py_int. rewrite strip_minus_digits.
    rewrite parse_digits_first by apply Unsigned.to_uint_nonnil.
    rewrite parse_digits_zero, Unsigned.of_to. reflexivity.
Qed.
End Keys.

(** ** Saving and loading *)

Section Persistence.
Import Config PerformanceTracker.

Lemma int_keys_json_dump (r acc : Records) :
  dict_wf (acc ++ r) -> int_keys (json_dump r) acc = Ok (acc ++ r).
Proof.
  revert acc. induction r as [|[k v] r IH]; intros acc Hwf; simpl.
  - now rewrite app_nil_r.
  - rewrite py_int_py_str.
    assert (Hnew : dict_mem acc k = false).
    { destruct (dict_mem acc k) eqn:E; [|reflexivity].
      apply dict_mem_In in E. unfold dict_wf, dict_keys in Hwf.
      rewrite map_app in Hwf. simpl in Hwf.
      apply NoDup_remove_2 in Hwf. exfalso. apply Hwf.
      apply in_or_app. now left. }
    rewrite dict_set_new by assumption.
    replace (acc ++ (k, v) :: r) with ((acc ++ [(k, v)]) ++ r)
      by (rewrite <- app_assoc; reflexivity).
    apply IH. rewrite <- app_assoc. exact Hwf.
Qed.

Lemma load_after_save (r : Records) (disk0 : disk) :
  dict_wf r -> writable disk0 = true ->
  write_records r disk0 = Ok (mkDisk (Stored (json_dump r)) true)
  /\ read_records (mkDisk (Stored (json_dump r)) true) = Ok r.
Proof.
  intros Hwf Hw. unfold write_records, read_records. rewrite Hw.
  split; [reflexivity|]. cbn [content]. now apply (int_keys_json_dump r []).
Qed.

Lemma load_data_stored s doc r :
  content (fs s) = Stored doc -> int_keys doc [] = Ok r ->
  _load_data s
  = Ok (tt, mkConsole (mkTracker r (fst (totals r)) (snd (totals r)))
                      (fs s) (out s ++ [(Success, TLoaded)]) (stdin s)).
Proof.
  intros Hc Hr. unfold _load_data, file_exists, read_records.
  rewrite Hc, Hr. reflexivity.
Qed.

(** C7: saving a record set and loading the file again gives back the
    same month -> (actual_profit, performance_diff) pairs, in the same
    order, in the dashboard's [save_data]/[load_data] and in the console's
    [_save_data]/[_load_data]; an integer month key survives its passage
    through a string key. *)
Theorem save_then_load_round_trip (r : Records) (disk0 : disk) :
  dict_wf r -> writable disk0 = true ->
  exists disk1,
    Dashboard.save_data r disk0 = Ok disk1
    /\ Dashboard.load_data disk1 = Ok r
    /\ (forall cp td shown lines,
           exists s1 s2,
             _save_data (mkConsole (mkTracker r cp td) disk0 shown lines) = Ok (tt, s1)
             /\ fs s1 = disk1
             /\ __init__ disk1 lines = Ok (tt, s2)
             /\ records (self s2) = r)
    /\ (forall k, py_int (py_str k) = Some k).
Proof.
  intros Hwf Hw. destruct (load_after_save r disk0 Hwf Hw) as (Hsave & Hload).
  exists (mkDisk (Stored (json_dump r)) true).
  split; [exact Hsave|]. split; [exact Hload|]. split; [|apply py_int_py_str].
  intros cp td shown lines. eexists. eexists.
  split; [unfold _save_data; cbn [self fs records]; rewrite Hsave; reflexivity|].
  split; [reflexivity|].
  unfold __init__.
  rewrite (load_data_stored
             (mkConsole (mkTracker [] 0 0) (mkDisk (Stored (json_dump r)) true) [] lines)
             (json_dump r) r eq_refl Hload).
  split; reflexivity.
Qed.

Lemma round_trip_witness :
  exists disk1,
    Dashboard.save_data Sample.out_of_order (mkDisk Absent true) = Ok disk1
    /\ Dashboard.load_data disk1 = Ok Sample.out_of_order
    /\ dict_keys Sample.out_of_order = [3%Z; 2%Z].
Proof.
  destruct (save_then_load_round_trip Sample.out_of_order (mkDisk Absent true))
    as (disk1 & Hsave & Hload & _).
  - apply upserts_wf, dict_wf_nil.
  - reflexivity.
  - exists disk1. split; [exact Hsave|]. split; [exact Hload | reflexivity].
Defined.

(** C4, at the input where the code departs from it: on a file that is
    not JSON the dashboard's [load_data] raises and the script ends with
    the exception, whereas the console's loader reports the failure and
    starts empty; on an absent file both start empty.  A JSON file with a
    key that is no integer makes both raise. *)
Theorem load_recovery_differs (w : bool) (lines : list line) (wd : Dashboard.widgets) :
  Dashboard.load_data (mkDisk Malformed w) = Raise JSONDecodeError
  /\ Dashboard.script None (mkDisk Malformed w) wd
     = (None, mkDisk Malformed w, Raise JSONDecodeError)
  /\ __init__ (mkDisk Malformed w) lines
     = Ok (tt, mkConsole (mkTracker [] 0 0) (mkDisk Malformed w)
                         [(Error, TLoadFailed JSONDecodeError)] lines)
  /\ Dashboard.load_data (mkDisk Unreadable w) = Raise IOError
  /\ __init__ (mkDisk Unreadable w) lines
     = Ok (tt, mkConsole (mkTracker [] 0 0) (mkDisk Unreadable w)
                         [(Error, TLoadFailed IOError)] lines)
  /\ Dashboard.load_data (mkDisk Absent w) = Ok []
  /\ __init__ (mkDisk Absent w) lines = Ok (tt, Console.fresh w lines)
  /\ Dashboard.load_data Sample.bad_key_disk = Raise ValueError
  /\ __init__ Sample.bad_key_disk lines = Raise ValueError.
Proof. repeat split. Qed.
End Persistence.

(** ** Consistency of loaded records *)

Section LoadConsistency.
Import Config PerformanceTracker.


Lemma int_keys_raises doc acc e : int_keys doc acc = Raise e -> e = ValueError.
Proof.
  revert acc. induction doc as [|[k v] doc IH]; intros acc; simpl.
  - discriminate.
  - destruct (py_int k); [apply IH | congruence].
Qed.





End LoadConsistency.

(** * Further properties of the two front-ends *)

(** ** The month selector *)

Section SidebarFacts.
Import Config.

Lemma digits_have_no_sign_byte d :
  string_forall (fun c => negb (Ascii.eqb c (ascii_of_nat 230)))
                (NilEmpty.string_of_uint d) = true.
Proof.
  induction d; cbn [NilEmpty.string_of_uint string_forall]; try reflexivity;
    rewrite IHd; reflexivity.
Qed.

Lemma py_str_has_no_sign_byte m :
  string_forall (fun c => negb (Ascii.eqb c (ascii_of_nat 230))) (py_str m) = true.
Proof.
  unfold py_str.
  destruct (Z.to_int m) as [d|d]; cbn [NilEmpty.string_of_int string_forall].
  - apply digits_have_no_sign_byte.
  - rewrite digits_have_no_sign_byte. reflexivity.
Qed.

Lemma prefix_sign_false c r :
  Ascii.eqb c (ascii_of_nat 230) = false ->
  String.prefix Sidebar.month_sign (String c r) = false.
Proof.
  intros Hc. unfold Sidebar.month_sign. cbn [String.prefix].
  destruct (ascii_dec (ascii_of_nat 230) c) as [E|E]; [|reflexivity].
  rewrite <- E in Hc. rewrite Ascii.eqb_refl in Hc. discriminate.
Qed.

Lemma replace_sign_after s :
  string_forall (fun c => negb (Ascii.eqb c (ascii_of_nat 230))) s = true ->
  replace_from Sidebar.month_sign EmptyString (s ++ Sidebar.month_sign) 0 = s.
Proof.
  induction s as [|c r IH]; intros Hs.
  - reflexivity.
  - cbn [string_forall] in Hs. apply andb_true_iff in Hs as (Hc & Hr).
    apply negb_true_iff in Hc.
    cbn [append replace_from]. rewrite (prefix_sign_false c _ Hc).
    now rewrite IH.
Qed.

(** X1: the handler recovers the month from the label it was given:
    [int(label.replace(sign, ''))] is [m] for the label of any month [m];
    so every label the selector offers yields a month of
    [START_MONTH, END_MONTH]. *)
Theorem month_label_round_trip (m : Z) :
  Sidebar.month_of_label (Sidebar.month_label m) = Some m
  /\ (forall label,
         In label Sidebar.all_months ->
         exists m', Sidebar.month_of_label label = Some m'
                    /\ (START_MONTH <= m' <= END_MONTH)%Z).
Proof.
  assert (Hrt : forall k, Sidebar.month_of_label (Sidebar.month_label k) = Some k).
  { intros k. unfold Sidebar.month_of_label, Sidebar.month_label, py_replace.
    change (match Sidebar.month_sign with
            | EmptyString => intersperse EmptyString (py_str k ++ Sidebar.month_sign)
            | String _ _ =>
                replace_from Sidebar.month_sign EmptyString
                  (py_str k ++ Sidebar.month_sign) 0
            end)
      with (replace_from Sidebar.month_sign EmptyString
              (py_str k ++ Sidebar.month_sign) 0).
    rewrite replace_sign_after by apply py_str_has_no_sign_byte.
    apply py_int_py_str. }
  split; [apply Hrt|].
  intros label Hin. unfold Sidebar.all_months in Hin.
  apply in_map_iff in Hin as (m' & <- & Hm'). apply py_range_In in Hm'.
  exists m'. split; [apply Hrt | lia].
Qed.

Lemma default_label_formula (r : Records) :
  (0 <= Sidebar.next_month_index r < Z.of_nat (List.length Sidebar.all_months))%Z
  /\ Sidebar.default_label r
     = Some (Sidebar.month_label (START_MONTH + dict_len r mod 11)).
Proof.
  unfold Sidebar.default_label, Sidebar.next_month_index.
  change (Z.of_nat (List.length Sidebar.all_months)) with 11%Z.
  destruct (dict_truthy r) eqn:Ht.
  - pose proof (Z.mod_pos_bound (dict_len r) 11 eq_refl) as Hb.
    split; [lia|].
    set (k := (dict_len r mod 11)%Z) in *.
    assert (Hk : (k = 0 \/ k = 1 \/ k = 2 \/ k = 3 \/ k = 4 \/ k = 5 \/ k = 6
                  \/ k = 7 \/ k = 8 \/ k = 9 \/ k = 10)%Z) by lia.
    repeat (destruct Hk as [->|Hk]; [reflexivity|]). rewrite Hk. reflexivity.
  - destruct r; [|discriminate]. split; [lia | reflexivity].
Qed.

(** X2: the selector's starting index is always a valid index into the
    eleven labels, and the label it selects is that of month
    [START_MONTH + len(records) mod 11]: it cycles back to the first
    month once eleven records are held. *)
Theorem default_month_index_in_range (r : Records) :
  (0 <= Sidebar.next_month_index r < Z.of_nat (List.length Sidebar.all_months))%Z
  /\ Sidebar.default_label r
     = Some (Sidebar.month_label (START_MONTH + dict_len r mod 11))
  /\ (List.length r = 11%nat ->
      Sidebar.default_label r = Some (Sidebar.month_label START_MONTH)).
Proof.
  destruct (default_label_formula r) as (Hb & Hl).
  split; [exact Hb|]. split; [exact Hl|].
  intros Hlen. rewrite Hl. unfold dict_len. rewrite Hlen. reflexivity.
Qed.


End SidebarFacts.

(** ** Typed input *)

Section InputFacts.
Import Config PerformanceTracker.
Local Open Scope console_scope.

Lemma get_profit_input_from_skips bad l rest raw s :
  Forall (fun b => float_of_line b = None) bad ->
  float_of_line l = Some raw ->
  _get_profit_input_from (bad ++ l :: rest) s
  = Ok (raw * 10000,
        mkConsole (self s) (fs s)
                  (out s ++ repeat (Error, TInvalidNumber) (List.length bad)) rest).
Proof.
  intros Hbad Hl. revert s.
  induction Hbad as [|b bad Hb Hbad IH]; intros s; simpl.
  - rewrite Hl, app_nil_r. reflexivity.
  - rewrite Hb, IH. cbn [self fs out stdin]. rewrite <- app_assoc. reflexivity.
Qed.

Lemma get_profit_input_from_eof bad s :
  Forall (fun b => float_of_line b = None) bad ->
  _get_profit_input_from bad s = Raise EOFError.
Proof.
  intros Hbad. revert s. induction Hbad as [|b bad Hb Hbad IH]; intros s; simpl.
  - reflexivity.
  - rewrite Hb. apply IH.
Qed.

(** X4: the profit prompt passes over every line that is no number,
    printing one error for each, and returns the first number times
    10000; the object and the disk are not touched, and the lines after
    the number stay pending.  When no number is left to read, it ends in
    [EOFError]. *)
Theorem profit_prompt_skips_invalid_lines
  (s : console) (bad : list line) (l : line) (rest : list line) (raw : Q) :
  Forall (fun b => float_of_line b = None) bad ->
  float_of_line l = Some raw ->
  stdin s = bad ++ l :: rest ->
  _get_profit_input s
  = Ok (raw * 10000,
        mkConsole (self s) (fs s)
                  (out s ++ repeat (Error, TInvalidNumber) (List.length bad)) rest)
  /\ (forall s0,
         Forall (fun b => float_of_line b = None) (stdin s0) ->
         _get_profit_input s0 = Raise EOFError).
Proof.
  intros Hbad Hl Hin. split.
  - unfold _get_profit_input. rewrite Hin.
    now apply get_profit_input_from_skips.
  - intros s0 H0. unfold _get_profit_input.
    now apply get_profit_input_from_eof.
Qed.

Lemma profit_prompt_witness :
  _get_profit_input
    (Sample.holding Sample.in_order true
       [LText "abc"; LText ""; LDec 19.5; LText "q"])
  = Ok (19.5 * 10000,
        mkConsole (mkTracker Sample.in_order 0 0) (mkDisk Absent true)
                  [(Error, TInvalidNumber); (Error, TInvalidNumber)]
                  [LText "q"]).
Proof.
  apply (profit_prompt_skips_invalid_lines
           (Sample.holding Sample.in_order true
              [LText "abc"; LText ""; LDec 19.5; LText "q"])
           [LText "abc"; LText ""] (LDec 19.5) [LText "q"] 19.5).
  - repeat constructor.
  - reflexivity.
  - reflexivity.
Defined.

(** X5: the month [_get_next_month] proposes is above every recorded
    month and has no record, so entering it never overwrites: the store
    gains exactly one month and every earlier record is kept as it was. *)
Theorem next_month_is_new (r : Records) (raw : Q) :
  (forall k, In k (dict_keys r) -> (k < Console.next_month r)%Z)
  /\ dict_mem r (Console.next_month r) = false
  /\ Spec.upsert r (Console.next_month r) raw
     = r ++ [(Console.next_month r,
              mkRecord (raw * 10000) (raw * 10000 - MONTHLY_TARGET))]
  /\ (forall k, k <> Console.next_month r ->
                dict_get (Spec.upsert r (Console.next_month r) raw) k
                = dict_get r k).
Proof.
  assert (Hlt : forall k, In k (dict_keys r) -> (k < Console.next_month r)%Z).
  { intros k Hk. unfold Console.next_month.
    destruct r as [|[k0 v0] r']; [contradiction|]. cbn [dict_truthy negb].
    change (dict_keys ((k0, v0) :: r')) with (k0 :: dict_keys r') in *.
    destruct (py_max_spec 0%Z k0 (dict_keys r')) as (_ & Hub).
    apply Hub in Hk. lia. }
  assert (Hnew : dict_mem r (Console.next_month r) = false).
  { destruct (dict_mem r _) eqn:E; [|reflexivity].
    apply dict_mem_In, Hlt in E. lia. }
  split; [exact Hlt|]. split; [exact Hnew|]. split.
  - unfold Spec.upsert. cbv zeta. now apply dict_set_new.
  - intros k Hk. now apply upsert_get_other.
Qed.
End InputFacts.

(** ** What a turn of the loop can do *)

Section TurnFacts.
Import Config PerformanceTracker.
Local Open Scope console_scope.

Lemma get_profit_input_from_raises lines s e :
  _get_profit_input_from lines s = Raise e -> e = EOFError.
Proof.
  revert s. induction lines as [|l rest IH]; intros s; simpl.
  - congruence.
  - destruct (float_of_line l); [discriminate | apply IH].
Qed.

(** The steps both handlers run once the profit is read. *)
Lemma write_month_steps m raw s (k : M unit) :
  (forall st, exists st', k st = Ok (tt, st')
                          /\ self st' = self st /\ fs st' = fs st
                          /\ stdin st' = stdin st) ->
  exists s',
    (_recalculate_totals ;; _save_data ;; k)
      (mkConsole
         (mkTracker (Spec.upsert (records (self s)) m raw)
                    (cumulative_profit (self s)) (total_deductions (self s)))
         (fs s) (out s) (stdin s))
    = Ok (tt, s')
    /\ Session.wrote s s' m raw
    /\ stdin s' = stdin s.
Proof.
  intros Hk. unfold bind at 1. rewrite recalculate_state.
  cbn [self fs out stdin records].
  match goal with |- context [bind _save_data _ ?st] =>
    destruct (save_data_returns st) as (s2 & E2 & Hs2 & Hi2 & Hw & Hnw) end.
  unfold bind at 1. rewrite E2.
  destruct (Hk s2) as (s3 & E3 & Hs3 & Hf3 & Hi3).
  exists s3. split; [exact E3|]. cbn [self fs out stdin records] in *.
  unfold Session.wrote, Session.coherent.
  rewrite Hs3, Hf3, Hi3, Hs2, Hi2. cbn [self records cumulative_profit total_deductions].
  repeat split; try reflexivity.
  - intros H. now destruct (Hw H).
  - intros H. now destruct (Hnw H).
Qed.

Lemma new_entry_tail_returns st :
  exists st', _display_progress st = Ok (tt, st')
              /\ self st' = self st /\ fs st' = fs st /\ stdin st' = stdin st.
Proof. apply display_progress_returns. Qed.

Lemma edit_tail_returns st :
  exists st', (display Success TEditSaved ;; _display_progress) st = Ok (tt, st')
              /\ self st' = self st /\ fs st' = fs st /\ stdin st' = stdin st.
Proof.
  unfold bind at 1. unfold display at 1. cbv beta iota.
  match goal with |- context [_display_progress ?s0] =>
    destruct (display_progress_returns s0) as (s1 & E & Hs & Hf & Hi) end.
  exists s1. split; [exact E|]. cbn [self fs out stdin] in *.
  now repeat split.
Qed.

(** [_handle_new_entry] either runs out of input or writes the month. *)
Lemma handle_new_entry_effect month s :
  match _handle_new_entry month s with
  | Raise e => e = EOFError
  | Ok (_, s') =>
      exists raw,
        Session.wrote s s' month raw
        /\ (List.length (stdin s') < List.length (stdin s))%nat
  end.
Proof.
  unfold _handle_new_entry.
  unfold bind at 1. unfold display at 1. cbv beta iota.
  unfold bind at 1.
  match goal with |- context [_get_profit_input ?st] =>
    destruct (_get_profit_input st) as [[x s2]|e] eqn:E end.
  - apply get_profit_input_frame in E as (Hs2 & Hf2 & [raw ->] & Hlen).
    cbn [self fs out stdin] in Hs2, Hf2, Hlen.
    unfold bind at 1. rewrite update_month_record_state. rewrite Hs2, Hf2.
    destruct (write_month_steps month raw
                (mkConsole (self s) (fs s)
                           (out s2 ++ [(Success, TMonthUpdated month)]) (stdin s2))
                _display_progress new_entry_tail_returns)
      as (s' & E' & Hw & Hi).
    cbn [self fs out stdin] in *.
    change (dict_set (records (self s)) month _)
      with (Spec.upsert (records (self s)) month raw).
    rewrite E'.
    exists raw. split; [exact Hw|]. rewrite Hi. exact Hlen.
  - now apply get_profit_input_from_raises in E.
Qed.

(** [_handle_edit_entry] runs out of input, changes nothing, or writes
    a month that was present. *)
Lemma handle_edit_entry_effect s :
  match _handle_edit_entry s with
  | Raise e => e = EOFError
  | Ok (_, s') =>
      (self s' = self s /\ fs s' = fs s
       /\ (List.length (stdin s') <= List.length (stdin s))%nat)
      \/ (exists m raw,
             dict_mem (records (self s)) m = true
             /\ Session.wrote s s' m raw
             /\ (List.length (stdin s') < List.length (stdin s))%nat)
  end.
Proof.
  unfold _handle_edit_entry.
  unfold bind at 1. unfold get_self at 1. cbv beta iota.
  destruct (negb (dict_truthy (records (self s)))).
  { unfold display. left. cbn [self fs out stdin]. repeat split. lia. }
  unfold bind at 1. unfold display at 1. cbv beta iota.
  unfold bind at 1. unfold prompt at 1. cbn [self fs out stdin].
  destruct (stdin s) as [|l0 rest] eqn:Hin; [reflexivity|].
  destruct (int_of_line l0) as [m|].
  2:{ unfold display. left. cbn [self fs out stdin List.length].
      repeat split. lia. }
  destruct (dict_get (records (self s)) m) as [old|] eqn:Hold.
  2:{ unfold display. left. cbn [self fs out stdin List.length].
      repeat split. lia. }
  unfold bind at 1. unfold display at 1. cbv beta iota.
  unfold bind at 1.
  match goal with |- context [_get_profit_input ?st] =>
    destruct (_get_profit_input st) as [[x s2]|e] eqn:E end.
  - apply get_profit_input_frame in E as (Hs2 & Hf2 & [raw ->] & Hlen).
    cbn [self fs out stdin] in Hs2, Hf2, Hlen.
    unfold bind at 1. rewrite update_month_record_state. rewrite Hs2, Hf2.
    unfold bind at 1. unfold display at 1. cbv beta iota.
    cbn [self fs out stdin].
    destruct (write_month_steps m raw
                (mkConsole (self s) (fs s)
                           ((out s2 ++ [(Success, TMonthUpdated m)])
                              ++ [(Info, TRecomputing)]) (stdin s2))
                (display Success TEditSaved ;; _display_progress)
                edit_tail_returns)
      as (s' & E' & Hw & Hi).
    cbn [self fs out stdin] in *.
    change (dict_set (records (self s)) m _)
      with (Spec.upsert (records (self s)) m raw).
    rewrite E'.
    right. exists m, raw.
    split; [unfold dict_mem; now rewrite Hold|].
    split; [exact Hw|]. rewrite Hi. simpl. lia.
  - now apply get_profit_input_from_raises in E.
Qed.
End TurnFacts.

Section SessionFacts.
Import Config PerformanceTracker.
Local Open Scope console_scope.

Lemma int_keys_wf doc acc r :
  dict_wf acc -> int_keys doc acc = Ok r -> dict_wf r.
Proof.
  revert acc. induction doc as [|[k v] doc IH]; intros acc Hwf; simpl.
  - intros H. now injection H as <-.
  - destruct (py_int k); [|discriminate]. apply IH. now apply dict_wf_set.
Qed.

Lemma final_summary_frame s :
  exists s',
    _display_final_summary s = Ok (tt, s')
    /\ self s' = self s /\ fs s' = fs s /\ stdin s' = stdin s.
Proof.
  unfold _display_final_summary, bind, get_self, display, display_all.
  cbv beta iota. cbn [self fs out stdin].
  eexists. split; [reflexivity|]. cbn [self fs out stdin]. repeat split.
Qed.

(** What [PerformanceTracker()] leaves, by what the file holds. *)
Lemma init_effect disk0 lines :
  match __init__ disk0 lines with
  | Raise e => e = ValueError /\ Dashboard.load_data disk0 = Raise ValueError
  | Ok (_, s) =>
      fs s = disk0 /\ stdin s = lines
      /\ Session.coherent s /\ dict_wf (records (self s))
      /\ (forall r0, Dashboard.load_data disk0 = Ok r0 -> records (self s) = r0)
      /\ (forall e, Dashboard.load_data disk0 = Raise e -> records (self s) = [])
  end.
Proof.
  destruct disk0 as [[| | |doc] w].
  - cbn. repeat split; try (intros; congruence); constructor.
  - cbn. repeat split; try (intros; congruence); constructor.
  - cbn. repeat split; try (intros; congruence); constructor.
  - unfold __init__, Dashboard.load_data, read_records.
    cbn [file_exists content].
    destruct (int_keys doc []) as [r|e] eqn:Hr.
    + rewrite (load_data_stored
                 (mkConsole (mkTracker [] 0 0) (mkDisk (Stored doc) w) [] lines)
                 doc r eq_refl Hr).
      cbn [self fs out stdin records]. unfold Session.coherent.
      cbn [self records cumulative_profit total_deductions].
      repeat split; try (intros; congruence).
      apply (int_keys_wf doc [] r); [constructor | exact Hr].
    + unfold _load_data, read_records. cbn [fs file_exists content].
      rewrite Hr. rewrite (int_keys_raises _ _ _ Hr). now split.
Qed.

Lemma opening_lines_frame s0 :
  exists s,
    (display Header TTitle ;; _display_progress) s0 = Ok (tt, s)
    /\ self s = self s0 /\ fs s = fs s0 /\ stdin s = stdin s0.
Proof.
  unfold bind at 1. unfold display at 1. cbv beta iota.
  match goal with |- context [_display_progress ?st] =>
    destruct (display_progress_returns st) as (s & E & Hs & Hf & Hi) end.
  exists s. split; [exact E|]. cbn [self fs out stdin] in *. now repeat split.
Qed.

(** What a turn of the loop does to the object, the file and the input. *)
Lemma run_iteration_effect s :
  match run_iteration s with
  | Raise e => e = EOFError
  | Ok (f, s') =>
      (Console.gate s = true /\ f = Break
       /\ self s' = self s /\ fs s' = fs s /\ stdin s' = stdin s)
      \/ (Console.gate s = false
          /\ (List.length (stdin s') < List.length (stdin s))%nat
          /\ ((self s' = self s /\ fs s' = fs s)
              \/ (f = Continue
                  /\ exists m raw,
                       (m = Console.next_month (records (self s))
                        \/ dict_mem (records (self s)) m = true)
                       /\ Session.wrote s s' m raw)))
  end.
Proof.
  unfold run_iteration. unfold bind at 1. rewrite get_next_month_value.
  rewrite <- gate_next_month. destruct (Console.gate s) eqn:Hg.
  - unfold bind at 1. unfold display at 1. cbv beta iota.
    match goal with |- context [bind _display_final_summary _ ?st] =>
      destruct (final_summary_frame st) as (s2 & E2 & Hs2 & Hf2 & Hi2) end.
    unfold bind at 1. rewrite E2. unfold ret. left.
    cbn [self fs out stdin] in *. now repeat split.
  - unfold bind at 1. unfold prompt at 1.
    destruct (stdin s) as [|l0 rest] eqn:Hin; [reflexivity|].
    destruct (action_of_line l0).
    + unfold bind at 1.
      pose proof (handle_new_entry_effect
                    (Console.next_month (records (self s)))
                    (mkConsole (self s) (fs s) (out s) rest)) as H.
      destruct (_handle_new_entry _ _) as [[[] s2]|e]; [|exact H].
      destruct H as (raw & Hw & Hlen). unfold ret. right.
      cbn [self fs out stdin] in *.
      split; [reflexivity|]. split; [simpl; lia|]. right.
      split; [reflexivity|]. exists (Console.next_month (records (self s))), raw.
      split; [now left | exact Hw].
    + unfold bind at 1.
      pose proof (handle_edit_entry_effect
                    (mkConsole (self s) (fs s) (out s) rest)) as H.
      destruct (_handle_edit_entry _) as [[[] s2]|e]; [|exact H].
      unfold ret. right. cbn [self fs out stdin] in *.
      split; [reflexivity|].
      destruct H as [(Hs & Hf & Hlen)|(m & raw & Hm & Hw & Hlen)].
      * split; [simpl; lia|]. left. now split.
      * split; [simpl; lia|]. right. split; [reflexivity|].
        exists m, raw. split; [now right | exact Hw].
    + unfold ret. right. cbn [self fs out stdin].
      split; [reflexivity|]. split; [simpl; lia|]. left. now split.
    + unfold bind at 1. unfold display at 1. cbv beta iota. unfold ret.
      right. cbn [self fs out stdin].
      split; [reflexivity|]. split; [simpl; lia|]. left. now split.
Qed.
End SessionFacts.

(** ** Invariants of a console session *)

Section SessionInvariants.
Import Config PerformanceTracker.
Local Open Scope console_scope.

Lemma started_effect disk0 lines s :
  Session.started disk0 lines = Ok (tt, s) ->
  fs s = disk0 /\ stdin s = lines
  /\ Session.coherent s /\ dict_wf (records (self s))
  /\ (forall r0, Dashboard.load_data disk0 = Ok r0 -> records (self s) = r0).
Proof.
  unfold Session.started. pose proof (init_effect disk0 lines) as H0.
  destruct (__init__ disk0 lines) as [[[] s0]|e]; [|discriminate].
  destruct H0 as (Hf & Hi & Hc & Hwf & Hload & _).
  destruct (opening_lines_frame s0) as (s1 & E & Hs1 & Hf1 & Hi1).
  rewrite E. intros H. injection H as <-.
  unfold Session.coherent in *. rewrite Hs1, Hf1, Hi1. now repeat split.
Qed.

Lemma wrote_keeps_invariants s s' m raw :
  Session.wrote s s' m raw -> dict_wf (records (self s)) ->
  Session.coherent s' /\ dict_wf (records (self s'))
  /\ (writable (fs s) = true -> Session.synced s' /\ writable (fs s') = true)
  /\ (writable (fs s) = false -> fs s' = fs s).
Proof.
  intros (Hr & Hc & Hw & Hnw) Hwf.
  assert (Hwf' : dict_wf (records (self s'))) by (rewrite Hr; now apply upsert_wf).
  split; [exact Hc|]. split; [exact Hwf'|]. split; [|exact Hnw].
  intros H. unfold Session.synced. rewrite (Hw H). split; [|reflexivity].
  unfold Dashboard.load_data, read_records. cbn [file_exists content].
  now apply (int_keys_json_dump (records (self s')) []).
Qed.

Lemma turns_running disk0 n s s' :
  Session.running disk0 s -> Console.turns n s = Some s' -> Session.running disk0 s'.
Proof.
  revert s. induction n as [|n IH]; intros s Hr; simpl.
  - intros H. now injection H as <-.
  - destruct (run_iteration s) as [[[] s1]|e] eqn:E; try discriminate.
    apply IH. now apply (Session.running_turn disk0 s s1).
Qed.

Lemma running_invariants (disk0 : disk) (s : console) :
  Session.running disk0 s ->
  Session.coherent s /\ dict_wf (records (self s)).
Proof.
  induction 1 as [lines s Hstart|s s' Hrun IH Hturn].
  - apply started_effect in Hstart as (_ & _ & Hc & Hwf & _). now split.
  - destruct IH as (Hc & Hwf). pose proof (run_iteration_effect s) as He.
    rewrite Hturn in He.
    destruct He as [(_ & Hf & _)|(_ & _ & [(Hs & _)|(_ & m & raw & _ & Hw)])].
    + discriminate.
    + unfold Session.coherent in *. rewrite Hs. now split.
    + destruct (wrote_keeps_invariants s s' m raw Hw Hwf) as (Hc' & Hwf' & _).
      now split.
Qed.

(** X6: at every turn of a session, whatever file it started on, the
    totals held by the tracker are those of its records, hence the direct
    sums over them, and the records have one entry per month. *)
Theorem session_totals_follow_records (disk0 : disk) (s : console) :
  Session.running disk0 s ->
  Session.coherent s
  /\ dict_wf (records (self s))
  /\ cumulative_profit (self s) == Spec.sum_actual_profit (records (self s))
  /\ total_deductions (self s) == Spec.sum_deductions (records (self s)).
Proof.
  intros Hrun. destruct (running_invariants disk0 s Hrun) as ((Hcp & Htd) & Hwf).
  destruct (totals_direct _ Hwf) as (H1 & H2).
  split; [now split|]. split; [exact Hwf|]. rewrite Hcp, Htd. now split.
Qed.

Lemma session_totals_witness :
  exists s,
    Session.started Sample.two_month_disk Sample.edit_then_enter_lines = Ok (tt, s)
    /\ exists s',
         Console.turns 3 s = Some s'
         /\ dict_keys (records (self s')) = [2%Z; 3%Z; 4%Z]
         /\ cumulative_profit (self s') = fst (totals (records (self s')))
         /\ cumulative_profit (self s') == 550000.
Proof.
  destruct (Session.started Sample.two_month_disk Sample.edit_then_enter_lines)
    as [[[] s]|e] eqn:E; [|vm_compute in E; discriminate].
  exists s. split; [reflexivity|].
  destruct (Console.turns 3 s) as [s'|] eqn:E';
    [|vm_compute in E; injection E as <-; vm_compute in E'; discriminate].
  exists s'. split; [reflexivity|].
  assert (Hr : Session.running Sample.two_month_disk s').
  { apply (turns_running _ 3 s); [|exact E'].
    now apply (Session.running_start _ Sample.edit_then_enter_lines). }
  destruct (session_totals_follow_records _ _ Hr) as ((Hcp & _) & _).
  vm_compute in E. injection E as <-. vm_compute in E'. injection E' as <-.
  split; [reflexivity|]. split; [exact Hcp|]. vm_compute. reflexivity.
Defined.

(** X7: a session started on a writable file that loads, or is absent,
    keeps file and memory in step: at every turn, loading the file gives
    the records in memory, so a new tracker started on the file at that
    point holds the same records and the same totals. *)
Theorem session_file_mirrors_memory (disk0 : disk) (r0 : Records) (s : console) :
  Session.running disk0 s ->
  writable disk0 = true ->
  Dashboard.load_data disk0 = Ok r0 ->
  Session.synced s
  /\ writable (fs s) = true
  /\ forall lines,
       exists s2, __init__ (fs s) lines = Ok (tt, s2) /\ self s2 = self s.
Proof.
  intros Hrun Hw Hload.
  assert (Hinv : Session.synced s /\ writable (fs s) = true).
  { induction Hrun as [lines s Hstart|s s' Hrun IH Hturn].
    - apply started_effect in Hstart as (Hf & _ & _ & _ & Hr).
      unfold Session.synced. rewrite Hf, (Hr r0 Hload). now split.
    - destruct IH as (Hsync & Hws).
      destruct (running_invariants _ _ Hrun) as (_ & Hwf).
      pose proof (run_iteration_effect s) as He. rewrite Hturn in He.
      destruct He as [(_ & Hf & _)|(_ & _ & [(Hs & Hf)|(_ & m & raw & _ & Hwr)])].
      + discriminate.
      + unfold Session.synced in *. rewrite Hs, Hf. now split.
      + now apply (wrote_keeps_invariants s s' m raw Hwr Hwf). }
  destruct Hinv as (Hsync & Hws). split; [exact Hsync|]. split; [exact Hws|].
  intros lines. pose proof (init_effect (fs s) lines) as H0.
  destruct (running_invariants _ _ Hrun) as ((Hcp & Htd) & _).
  destruct (__init__ (fs s) lines) as [[[] s2]|e].
  - destruct H0 as (_ & _ & (Hcp2 & Htd2) & _ & Hr2 & _).
    exists s2. split; [reflexivity|].
    specialize (Hr2 _ Hsync).
    destruct (self s2) as [r2 cp2 td2], (self s) as [r cp td].
    cbn [records cumulative_profit total_deductions] in *. congruence.
  - destruct H0 as (_ & H0). unfold Session.synced in Hsync. congruence.
Qed.

Lemma session_mirror_witness :
  exists s,
    Session.started Sample.two_month_disk Sample.edit_then_enter_lines = Ok (tt, s)
    /\ exists s',
         Console.turns 3 s = Some s'
         /\ Dashboard.load_data (fs s') = Ok (records (self s'))
         /\ dict_keys (records (self s')) = [2%Z; 3%Z; 4%Z].
Proof.
  destruct (Session.started Sample.two_month_disk Sample.edit_then_enter_lines)
    as [[[] s]|e] eqn:E; [|vm_compute in E; discriminate].
  exists s. split; [reflexivity|].
  destruct (Console.turns 3 s) as [s'|] eqn:E';
    [|vm_compute in E; injection E as <-; vm_compute in E'; discriminate].
  exists s'. split; [reflexivity|].
  assert (Hr : Session.running Sample.two_month_disk s').
  { apply (turns_running _ 3 s); [|exact E'].
    now apply (Session.running_start _ Sample.edit_then_enter_lines). }
  destruct (session_file_mirrors_memory Sample.two_month_disk Sample.in_order s' Hr)
    as (Hsync & _).
  - reflexivity.
  - reflexivity.
  - split; [exact Hsync|].
    vm_compute in E. injection E as <-. vm_compute in E'. injection E' as <-.
    reflexivity.
Defined.


End SessionInvariants.

(** ** How a run ends *)

Section RunEnds.
Import Config PerformanceTracker.
Local Open Scope console_scope.



(** X10: an edit that names no month of the store changes nothing.  With
    no records at all it reports so without reading a line; otherwise it
    reads one line and, when that is no integer or an integer without a
    record, reports the error and returns, the object and the file as
    they were. *)
Theorem edit_rejects_unknown_month (s : console) (l : line) (rest : list line) :
  stdin s = l :: rest ->
  dict_truthy (records (self s)) = true ->
  match int_of_line l with
  | Some m => dict_get (records (self s)) m = None
  | None => True
  end ->
  _handle_edit_entry s
  = Ok (tt, mkConsole (self s) (fs s)
                      (out s ++ [(SubHeader, TEditHistory);
                                 (Error, match int_of_line l with
                                         | Some m => TNoSuchMonth m
                                         | None => TInvalidMonth
                                         end)])
                      rest)
  /\ (forall cp td d shown ls,
         _handle_edit_entry (mkConsole (mkTracker [] cp td) d shown ls)
         = Ok (tt, mkConsole (mkTracker [] cp td) d
                             (shown ++ [(Error, TNoHistory)]) ls)).
Proof.
  intros Hin Ht Hl. split; [|reflexivity].
  unfold _handle_edit_entry.
  unfold bind at 1. unfold get_self at 1. cbv beta iota. rewrite Ht.
  cbn [negb].
  unfold bind at 1. unfold display at 1. cbv beta iota.
  unfold bind at 1. unfold prompt at 1. cbn [self fs out stdin]. rewrite Hin.
  destruct (int_of_line l) as [m|].
  - rewrite Hl. unfold display. cbn [self fs out stdin].
    rewrite <- app_assoc. reflexivity.
  - unfold display. cbn [self fs out stdin]. rewrite <- app_assoc. reflexivity.
Qed.

Lemma edit_rejects_witness :
  _handle_edit_entry (Sample.holding Sample.in_order true [LInt 7; LInt 20])
  = Ok (tt, mkConsole (mkTracker Sample.in_order 0 0) (mkDisk Absent true)
                      [(SubHeader, TEditHistory); (Error, TNoSuchMonth 7)]
                      [LInt 20]).
Proof.
  apply (edit_rejects_unknown_month
           (Sample.holding Sample.in_order true [LInt 7; LInt 20])
           (LInt 7) [LInt 20]); reflexivity.
Defined.
End RunEnds.

(** ** What a load returns *)

Section LoadFacts.
Import Config PerformanceTracker.





(** The file with February under "2" and under "02" loads with the
    second record, in the first one's place. *)
Example load_repeated_key :
  Dashboard.load_data (mkDisk (Stored Sample.repeated_key_doc) true)
  = Ok [(2%Z, mkRecord 210000 30000); (3%Z, mkRecord 170000 (-10000))].
Proof. reflexivity. Qed.

(** X12: the dashboard's table has one row per recorded month, in
    ascending order of month, each with the record stored for it. *)
Theorem table_rows_ascending (r : Records) :
  let rows := Dashboard.table (Dashboard.render r) in
  Sorted Z.le (map fst rows)
  /\ Permutation (map fst rows) (dict_keys r)
  /\ (forall row, In row rows ->
                  exists rec, snd row = Some rec
                              /\ dict_get r (fst row) = Some rec).
Proof.
  cbv zeta. unfold Dashboard.render. cbn [Dashboard.table].
  destruct r as [|kv r'] eqn:Er.
  - cbn [dict_truthy]. split; [constructor|]. split; [constructor|].
    intros row [].
  - cbn [dict_truthy]. rewrite <- Er. clear Er kv r'.
    rewrite map_map. cbn [fst]. rewrite map_id.
    split; [apply sorted_ascending|]. split; [apply sorted_Permutation|].
    intros row Hin. apply in_map_iff in Hin as (m & <- & Hm). cbn [fst snd].
    apply (Permutation_in _ (sorted_Permutation (dict_keys r))) in Hm.
    apply dict_mem_In in Hm. unfold dict_mem in Hm.
    destruct (dict_get r m) as [rec|]; [|discriminate].
    now exists rec.
Qed.
End LoadFacts.

(** ** The two front-ends on one file *)

Section SharedFile.
Import Config PerformanceTracker.




End SharedFile.

(** ** Size of the bonus *)

Section BonusBounds.
Import Config.

Lemma surplus_tiers_monotone cp cp2 :
  cp <= cp2 -> (Spec.surplus_tiers cp <= Spec.surplus_tiers cp2)%Z.
Proof.
  intros Hle. unfold Spec.surplus_tiers. apply Qfloor_resp_le.
  unfold ANNUAL_TARGET, SURPLUS_BONUS_THRESHOLD.
  apply Qmult_le_compat_r; [lra | discriminate].
Qed.

(** X15: from the annual target on, the surplus bonus is a whole number
    of bonus amounts, never negative; ten times the bonus is at most the
    surplus over the target, and the surplus is less than ten times the
    bonus plus one more amount; the number of tiers does not decrease
    when the cumulative profit grows, and the total bonus is at least the
    refund. *)
Theorem surplus_bonus_bounds (cp cp2 td : Q) :
  ANNUAL_TARGET <= cp ->
  cp <= cp2 ->
  exists tiers tiers2 : Z,
    Dashboard.bonus cp td
    = Dashboard.Achieved td (inject_Z tiers * SURPLUS_BONUS_AMOUNT)
                         (td + inject_Z tiers * SURPLUS_BONUS_AMOUNT)
    /\ Dashboard.bonus cp2 td
       = Dashboard.Achieved td (inject_Z tiers2 * SURPLUS_BONUS_AMOUNT)
                            (td + inject_Z tiers2 * SURPLUS_BONUS_AMOUNT)
    /\ (0 <= tiers <= tiers2)%Z
    /\ 10 * (inject_Z tiers * SURPLUS_BONUS_AMOUNT) <= cp - ANNUAL_TARGET
    /\ cp - ANNUAL_TARGET
       < 10 * (inject_Z tiers * SURPLUS_BONUS_AMOUNT + SURPLUS_BONUS_AMOUNT)
    /\ td <= td + inject_Z tiers * SURPLUS_BONUS_AMOUNT.
Proof.
  intros Hcp Hle.
  exists (Spec.surplus_tiers cp), (Spec.surplus_tiers cp2).
  assert (Hcp2 : ANNUAL_TARGET <= cp2) by (eapply Qle_trans; eassumption).
  unfold Dashboard.bonus.
  rewrite (proj2 (Qle_bool_iff _ _) Hcp), (proj2 (Qle_bool_iff _ _) Hcp2).
  split; [reflexivity|]. split; [reflexivity|].
  pose proof (surplus_tiers_nonneg cp Hcp) as Hn.
  destruct (surplus_tiers_bounds cp) as (Hlo & Hhi).
  pose proof (surplus_tiers_monotone cp cp2 Hle) as Hmono.
  assert (Hq : 0 <= inject_Z (Spec.surplus_tiers cp)).
  { change 0 with (inject_Z 0). now rewrite <- Zle_Qle. }
  unfold ANNUAL_TARGET, SURPLUS_BONUS_THRESHOLD, SURPLUS_BONUS_AMOUNT in *.
  split; [lia|]. split; [lra|]. split; lra.
Qed.

Lemma surplus_bonus_witness :
  exists tiers tiers2 : Z,
    Dashboard.bonus 2450001 5000
    = Dashboard.Achieved 5000 (inject_Z tiers * SURPLUS_BONUS_AMOUNT)
                         (5000 + inject_Z tiers * SURPLUS_BONUS_AMOUNT)
    /\ Dashboard.bonus 2500000 5000
       = Dashboard.Achieved 5000 (inject_Z tiers2 * SURPLUS_BONUS_AMOUNT)
                            (5000 + inject_Z tiers2 * SURPLUS_BONUS_AMOUNT)
    /\ (0 <= tiers <= tiers2)%Z.
Proof.
  destruct (surplus_bonus_bounds 2450001 2500000 5000)
    as (t1 & t2 & H1 & H2 & H3 & _).
  - unfold ANNUAL_TARGET. lra.
  - lra.
  - exists t1, t2. split; [exact H1|]. split; [exact H2 | exact H3].
Defined.
End BonusBounds.

(** ** Entering a year at the console *)

Section Entering.
Import Config PerformanceTracker.
Local Open Scope console_scope.










End Entering.

(** ** The final report and the dashboard across runs *)

Section Reports.
Import Config PerformanceTracker.

(** X17: the final report lists the months START_MONTH to END_MONTH, each
    once and in order: a month with a record by its record, a month
    without one as missing.  A record whose month lies outside the range
    is not listed, while the cumulative profit printed below the rows is
    the tracker's, which counts it. *)
Theorem final_report_rows (s : console) :
  let rows := map (summary_row (records (self s)))
                  (py_range START_MONTH (END_MONTH + 1)) in
  exists s' above below,
    _display_final_summary s = Ok (tt, s')
    /\ out s' = out s ++ above ++ rows
                ++ (Plain, TRule) :: (Plain, TYearProfit (cumulative_profit (self s)))
                   :: below
    /\ List.length rows = 11%nat
    /\ (forall m rec,
           In (Plain, TRow m rec) rows
           <-> (START_MONTH <= m <= END_MONTH)%Z
               /\ dict_get (records (self s)) m = Some rec)
    /\ (forall m,
           In (Plain, TRowMissing m) rows
           <-> (START_MONTH <= m <= END_MONTH)%Z
               /\ dict_get (records (self s)) m = None).
Proof.
  cbv zeta. destruct (final_summary_ends_with_bonus s) as (s' & E & _ & Ho).
  exists s', [(Header, TReportTitle); (Plain, TTableHead); (Plain, TRule)],
    ((Plain, TYearTarget ANNUAL_TARGET) :: (SubHeader, TBonusTitle)
       :: year_end_bonus (self s)).
  split; [exact E|]. split.
  { rewrite Ho. repeat rewrite <- app_assoc. reflexivity. }
  split; [reflexivity|].
  assert (Hrange : forall k, In k (py_range START_MONTH (END_MONTH + 1))
                             <-> (START_MONTH <= k <= END_MONTH)%Z).
  { intros k. rewrite py_range_In. lia. }
  split.
  - intros m rec. rewrite in_map_iff. split.
    + intros (k & Hk & Hin). apply Hrange in Hin. unfold summary_row in Hk.
      destruct (dict_get (records (self s)) k) as [rec'|] eqn:Hg;
        [|discriminate].
      injection Hk as <- <-. now split.
    + intros (Hm & Hg). exists m. split; [|now apply Hrange].
      unfold summary_row. now rewrite Hg.
  - intros m. rewrite in_map_iff. split.
    + intros (k & Hk & Hin). apply Hrange in Hin. unfold summary_row in Hk.
      destruct (dict_get (records (self s)) k) as [rec'|] eqn:Hg;
        [discriminate|].
      injection Hk as <-. now split.
    + intros (Hm & Hg). exists m. split; [|now apply Hrange].
      unfold summary_row. now rewrite Hg.
Qed.




End Reports.
